(** * chatchat: the Streamlit chat script [app.py], embedded and verified

    [app.py] is a script that the UI framework runs from top to bottom on
    every user interaction.  One run reads the widget values, updates the
    per-session dictionary [st.session_state], talks to the remote
    completion service at most once and writes to the page.

    The embedding follows the script section by section (the [# 0) .. # 7)]
    comments of the source).  Session state, the script variable
    [full_text] and the page are threaded through a small state + exception
    monad, so that every definition can be read next to the lines of the
    source it stands for.

    The framework can end a run inside any [st.*] call, by raising its
    rerun or stop exception there.  The sections that call [st.*] are
    therefore written once, in [Module Live], over the framework's
    decisions; [run_script], [step] and [rendered] are the run that the
    framework lets through to its end, and [Live.run_script], [Live.step]
    and [Live.rendered] the run under any framework. *)

From Stdlib Require Import String Ascii ZArith QArith Lia.
From stdpp Require Import base tactics option list.

Local Open Scope string_scope.
Local Open Scope list_scope.

(** ** Data model *)

(** A chat message is the dictionary [{"role": ..., "content": ...}]. *)
Record Message : Type := mkMessage {
  role : string;
  content : string
}.

(** [st.session_state]: a dictionary in which the script uses the keys
    ["messages"] and ["character"]; [None] is an absent key. *)
Record SessionState : Type := mkSession {
  messages : option (list Message);
  character : option string
}.

(** The session dictionary of a new browser session, and the result of
    [st.session_state.clear()]. *)
Definition empty_session : SessionState := mkSession None None.

(** The retained history: the list under ["messages"], empty when the key
    is absent. *)
Definition retained (s : SessionState) : list Message :=
  default [] (messages s).

(** A Python exception: [type(e).__name__] and [str(e)]. *)
Record Error : Type := mkError {
  error_kind : string;
  error_text : string
}.

(** *** The streamed response of the SDK *)

(** [chunk.choices[0].delta.content]: the delta may be [None], and its
    [content] attribute may be missing or [None]. *)
Record Delta : Type := mkDelta { delta_content : option string }.
Record Choice : Type := mkChoice { delta : option Delta }.
Record Chunk : Type := mkChunk { choices : list Choice }.

(** Iterating the stream yields finitely many chunks and then either ends
    or raises. *)
Inductive StreamEnd : Type :=
| Exhausted
| Broken (e : Error).

Record Stream : Type := mkStream {
  chunks : list Chunk;
  ending : StreamEnd
}.

(** [client.chat.completions.create(...)] either raises or returns a
    stream. *)
Inductive Response : Type :=
| Refused (e : Error)
| Opened (s : Stream).

(** The keyword arguments of [client.chat.completions.create]. *)
Record Request : Type := mkRequest {
  req_model : string;
  req_temperature : Q;
  req_max_tokens : Z;
  req_messages : list Message;
  req_stream : bool
}.

(** *** Personas *)

(** The options of the persona select box: the three keys of
    [character_prompts], in the order of the dictionary. *)
Inductive Persona : Type :=
| FriendlyMentor
| NinetiesMood
| CalmLibrarian.

Definition character_prompts : list (string * string) :=
  [ ("친근한_멘토",
     "당신은 친근하고 따뜻한 개발 멘토입니다.
짧고 실용하며, 복잡한 용어는 풀어서 설명하고,
필요하면 한 줄 예시 코드를 먼저 제시하세요.");
    ("90년대_감성",
     "당신은 90년대 감성의 재치 있는 친구입니다.
밝고 유쾌하지만 정보는 정확하게,
문장 끝에 가벼운 추임새를 한 번씩 첨가하세요(과하지 않게).");
    ("차분한_사서",
     "당신은 차분하고 신뢰감 있는 사서입니다.
정보의 출처/근거를 간략히 덧붙이고,
항상 요약 → 핵심 목록 → 다음 행동을 제안하세요.") ].

(** The value the select box hands to the script for each option. *)
Definition character_key (p : Persona) : string :=
  match p with
  | FriendlyMentor => "친근한_멘토"
  | NinetiesMood => "90년대_감성"
  | CalmLibrarian => "차분한_사서"
  end.

(** [d[k]] on a dictionary written as an association list. *)
Fixpoint dict_get (d : list (string * string)) (k : string) : option string :=
  match d with
  | [] => None
  | (k', v) :: d' => if String.eqb k' k then Some v else dict_get d' k
  end.

(** *** What one run of the script receives *)

Record Inputs : Type := mkInputs {
  api_key : option string;            (* os.getenv("OPENAI_API_KEY"), after load_dotenv() *)
  model : string;                     (* model select box *)
  temperature : Q;                    (* temperature slider *)
  max_tokens : Z;                     (* max-tokens slider *)
  selected_character : Persona;       (* persona select box *)
  reset_clicked : bool;               (* the reset button *)
  prompt : option string;             (* st.chat_input(...) *)
  remote : Request -> Response        (* the completion service *)
}.

(** *** What one run of the script writes to the page *)

Inductive Event : Type :=
| SetPageConfig
| ErrorBox (text : string)                    (* st.error *)
| ChatMessage (who : string) (text : string)  (* st.chat_message + st.markdown *)
| PlaceholderEmpty                            (* st.empty() *)
| PlaceholderMarkdown (text : string)         (* placeholder.markdown *)
| PlaceholderError (text : string)            (* placeholder.error *)
| Requested (r : Request)                     (* completions.create called *)
| Metric (label : string) (value : nat)       (* st.metric *)
| DownloadButton (data : string).             (* st.download_button *)

(** ** The script monad *)

(** The state a run works on: the session dictionary, the script variable
    [full_text] and what has been written to the page so far (oldest
    first). *)
Record World : Type := mkWorld {
  session_state : SessionState;
  full_text : string;
  page : list Event
}.

(** [st.stop()] and [st.rerun()] end the run by raising the framework's
    control exceptions, which are not subclasses of [Exception]. *)
Inductive Signal : Type :=
| StopScript
| RerunScript.

Inductive Outcome (A : Type) : Type :=
| Done (a : A)
| Raised (e : Error)
| Halted (sig : Signal).

Arguments Done {A} a.
Arguments Raised {A} e.
Arguments Halted {A} sig.

Definition Script (A : Type) : Type := World -> Outcome A * World.

Definition ret {A} (a : A) : Script A := fun w => (Done a, w).

Definition bind {A B} (m : Script A) (k : A -> Script B) : Script B :=
  fun w =>
    match m w with
    | (Done a, w') => k a w'
    | (Raised e, w') => (Raised e, w')
    | (Halted sig, w') => (Halted sig, w')
    end.

Declare Scope script_scope.
Delimit Scope script_scope with script.
Bind Scope script_scope with Script.

Notation "x <- m ;; k" := (bind m (fun x => k))
  (at level 100, m at next level, k at level 200, right associativity)
  : script_scope.
Notation "m ;; k" := (bind m (fun _ => k))
  (at level 100, k at level 200, right associativity) : script_scope.

Local Open Scope script_scope.

Definition raise {A} (e : Error) : Script A := fun w => (Raised e, w).
Definition halt {A} (sig : Signal) : Script A := fun w => (Halted sig, w).

(** [try: body except Exception as e: handler e].  Control exceptions pass
    through. *)
Definition try_except (body : Script unit) (handler : Error -> Script unit)
  : Script unit :=
  fun w =>
    match body w with
    | (Raised e, w') => handler e w'
    | r => r
    end.

(** [for x in xs: body x] *)
Fixpoint for_each {A} (xs : list A) (body : A -> Script unit) : Script unit :=
  match xs with
  | [] => ret tt
  | x :: xs' => body x ;; for_each xs' body
  end.

(** *** Primitive operations *)

(** An element is appended to the page.  Whether a call of the script gets
    as far as drawing its element is decided in [st] below. *)
Definition show (e : Event) : Script unit :=
  fun w => (Done tt, mkWorld (session_state w) (full_text w) (page w ++ [e])).

(** The framework's side of a run.  While the script runs, the user can
    touch a widget or close the page; the script runner then raises its
    rerun or stop exception inside the next [st.*] call.  A framework says,
    for the number of entries the run has put on the page so far (the
    elements drawn and the request sent), whether the next [st.*] call
    raises, and which exception. *)
Definition Framework : Type := nat -> option Signal.

(** The framework that lets the run through to its end. *)
Definition undisturbed : Framework := fun _ => None.

(** Every [st.*] call first passes the script runner's check. *)
Definition yield_point (f : Framework) : Script unit :=
  fun w =>
    match f (length (page w)) with
    | Some sig => (Halted sig, w)
    | None => (Done tt, w)
    end.

(** An [st.*] call (or a call on the placeholder) that draws [e]. *)
Definition st (f : Framework) (e : Event) : Script unit :=
  yield_point f ;; show e.

Definition st_stop : Script unit := halt StopScript.
Definition st_rerun : Script unit := halt RerunScript.

Definition get_session : Script SessionState :=
  fun w => (Done (session_state w), w).

Definition put_session (s : SessionState) : Script unit :=
  fun w => (Done tt, mkWorld s (full_text w) (page w)).

(** [st.session_state.clear()] *)
Definition session_clear : Script unit := put_session empty_session.

(** ["messages" in st.session_state] and ["character" in st.session_state] *)
Definition has_messages : Script bool :=
  s <- get_session ;; ret (bool_decide (is_Some (messages s))).
Definition has_character : Script bool :=
  s <- get_session ;; ret (bool_decide (is_Some (character s))).

(** Reading an attribute of [st.session_state] that is not set raises
    [AttributeError] (the framework's message is abbreviated here). *)
Definition missing_attribute (name : string) : Error :=
  mkError "AttributeError" ("st.session_state has no attribute " ++ name).

Definition read_messages : Script (list Message) :=
  s <- get_session ;;
  match messages s with
  | Some msgs => ret msgs
  | None => raise (missing_attribute "messages")
  end.

Definition read_character : Script string :=
  s <- get_session ;;
  match character s with
  | Some c => ret c
  | None => raise (missing_attribute "character")
  end.

(** [st.session_state.messages = msgs] and [st.session_state.character = c] *)
Definition write_messages (msgs : list Message) : Script unit :=
  s <- get_session ;; put_session (mkSession (Some msgs) (character s)).
Definition write_character (c : string) : Script unit :=
  s <- get_session ;; put_session (mkSession (messages s) (Some c)).

(** [st.session_state.messages.append(m)] *)
Definition append_message (m : Message) : Script unit :=
  msgs <- read_messages ;; write_messages (msgs ++ [m]).

Definition get_full_text : Script string :=
  fun w => (Done (full_text w), w).
Definition set_full_text (t : string) : Script unit :=
  fun w => (Done tt, mkWorld (session_state w) t (page w)).

(** Truth value of an [Optional[str]]: [None] and the empty string are
    false. *)
Definition truthy (o : option string) : bool :=
  match o with
  | Some s => negb (String.eqb s "")
  | None => false
  end.

(** [character_prompts[c]], raising [KeyError] on an unknown key. *)
Definition lookup_prompt (c : string) : Script string :=
  match dict_get character_prompts c with
  | Some p => ret p
  | None => raise (mkError "KeyError" ("'" ++ c ++ "'"))
  end.

(** [client.chat.completions.create(...)] with the keyword arguments [r] *)
Definition create (i : Inputs) (r : Request) : Script Stream :=
  show (Requested r) ;;
  match remote i r with
  | Opened s => ret s
  | Refused e => raise e
  end.

(** ** The script, section by section *)

Definition missing_key_text : string :=
  "OPENAI_API_KEY가 없어요.
프로젝트 루트에 .env 파일을 만들고 아래처럼 적어주세요:
OPENAI_API_KEY=sk-...".

(** [# 3)]: session state, and the reset of the history when the persona
    changed. *)
Definition prepare_session (i : Inputs) : Script unit :=
  let selected := character_key (selected_character i) in
  hm <- has_messages ;;
  (if negb hm then write_messages [] else ret tt) ;;
  hc <- has_character ;;
  (if negb hc then write_character selected else ret tt) ;;
  c <- read_character ;;
  if negb (String.eqb c selected) then
    write_character selected ;;
    write_messages []
  else ret tt.

(** The window sent to the model: [messages[-N:]] with [N = 20]. *)
Definition N : nat := 20.

Definition window (msgs : list Message) : list Message :=
  drop (length msgs - N) msgs.

(** The iterator of the stream raises when the connection breaks. *)
Definition stream_end (s : Stream) : Script unit :=
  match ending s with
  | Exhausted => ret tt
  | Broken e => raise e
  end.

(** The message of [placeholder.error]. *)
Definition error_line (e : Error) : string :=
  "오류: " ++ error_kind e ++ " — " ++ error_text e.

(** [# 7)]: the text of the transcript. *)
Definition LF : string := String "010"%char "".

Definition format_message (m : Message) : string :=
  "**" ++ role m ++ "**: " ++ content m.

Definition export_markdown (msgs : list Message) : string :=
  String.concat (LF ++ LF) (map format_message msgs).

(** The sections that call [st.*], under the framework [f]. *)
Module Live.

(** [# 0)]: without the credential the script reports and stops. *)
Definition check_api_key (f : Framework) (i : Inputs) : Script unit :=
  if negb (truthy (api_key i)) then
    st f SetPageConfig ;;
    st f (ErrorBox missing_key_text) ;;
    st_stop
  else ret tt.

(** [# 2)]: page set-up and side bar.  The widgets are read through
    [Inputs]; of the side bar only the reset button acts on the session.
    The title and the widgets, the same in every run, are left out of the
    page: their calls are one more point where the framework can end the
    run. *)
Definition sidebar (f : Framework) (i : Inputs) : Script unit :=
  st f SetPageConfig ;;
  yield_point f ;;
  if reset_clicked i then
    session_clear ;;
    st_rerun
  else ret tt.

(** [# 4)]: the retained history is rendered. *)
Definition render_history (f : Framework) : Script unit :=
  msgs <- read_messages ;;
  for_each msgs (fun m => st f (ChatMessage (role m) (content m))).

(** The body of [for chunk in stream]. *)
Definition consume_chunk (f : Framework) (chunk : Chunk) : Script unit :=
  match choices chunk with
  | [] => raise (mkError "IndexError" "list index out of range")
  | c :: _ =>
      match delta c with
      | Some d =>
          match delta_content d with
          | Some piece =>
              if negb (String.eqb piece "") then
                t <- get_full_text ;;
                set_full_text (t ++ piece) ;;
                t' <- get_full_text ;;
                st f (PlaceholderMarkdown t')
              else ret tt
          | None => ret tt
          end
      | None => ret tt
      end
  end.

(** The [try] block of [# 5)]. *)
Definition request_and_stream (f : Framework) (i : Inputs) : Script unit :=
  msgs <- read_messages ;;
  let history := window msgs in
  c <- read_character ;;
  system_prompt <- lookup_prompt c ;;
  stream <- create i (mkRequest (model i) (temperature i) (max_tokens i)
                        (mkMessage "system" system_prompt :: history) true) ;;
  for_each (chunks stream) (consume_chunk f) ;;
  stream_end stream.

(** [# 5)], between the two appends: the prompt is drawn, the placeholder
    is made, and the answer is streamed into it or the error written. *)
Definition answer (f : Framework) (i : Inputs) (text : string) : Script unit :=
  st f (ChatMessage "user" text) ;;
  st f PlaceholderEmpty ;;
  set_full_text "" ;;
  try_except (request_and_stream f i)
             (fun e => st f (PlaceholderError (error_line e))).

(** [# 5)]: a submitted prompt, the streamed answer and the two entries
    appended to the history. *)
Definition submit (f : Framework) (i : Inputs) (text : string) : Script unit :=
  append_message (mkMessage "user" text) ;;
  answer f i text ;;
  t <- get_full_text ;;
  append_message (mkMessage "assistant" t).

(** [st.chat_input] is one more [st.*] call; [if prompt:] follows. *)
Definition handle_prompt (f : Framework) (i : Inputs) : Script unit :=
  yield_point f ;;
  if truthy (prompt i) then submit f i (default "" (prompt i)) else ret tt.

(** [# 6)]: the two counters of the side bar. *)
Definition dashboard (f : Framework) : Script unit :=
  msgs <- read_messages ;;
  let total_msgs := length msgs in
  let user_msgs :=
    length (filter (fun m => String.eqb (role m) "user" = true) msgs) in
  st f (Metric "총 메시지" total_msgs) ;;
  st f (Metric "사용자 메시지" user_msgs).

(** [# 7)]: the transcript offered for download. *)
Definition export_button (f : Framework) : Script unit :=
  msgs <- read_messages ;;
  match msgs with
  | [] => ret tt
  | _ :: _ => st f (DownloadButton (export_markdown msgs))
  end.

(** The whole script. *)
Definition app (f : Framework) (i : Inputs) : Script unit :=
  check_api_key f i ;;
  sidebar f i ;;
  prepare_session i ;;
  render_history f ;;
  handle_prompt f i ;;
  dashboard f ;;
  export_button f.

(** One run on the session [s]: how the run ended, and the world it
    leaves. *)
Definition run_script (f : Framework) (i : Inputs) (s : SessionState)
  : Outcome unit * World :=
  app f i (mkWorld s "" []).

Definition step (f : Framework) (i : Inputs) (s : SessionState) : SessionState :=
  session_state (snd (run_script f i s)).

Definition rendered (f : Framework) (i : Inputs) (s : SessionState) : list Event :=
  page (snd (run_script f i s)).

(** A session is a sequence of runs, each under its framework. *)
Definition run_session (runs : list (Framework * Inputs)) (s : SessionState)
  : SessionState :=
  foldl (fun s r => step (fst r) (snd r) s) s runs.

End Live.

(** *** The script when the framework does not interrupt it

    The definitions below are the sections of the script in a run that the
    framework lets through to its end. *)

Definition check_api_key (i : Inputs) : Script unit :=
  Live.check_api_key undisturbed i.

Definition sidebar (i : Inputs) : Script unit := Live.sidebar undisturbed i.

Definition render_history : Script unit := Live.render_history undisturbed.

Definition consume_chunk (chunk : Chunk) : Script unit :=
  Live.consume_chunk undisturbed chunk.

Definition request_and_stream (i : Inputs) : Script unit :=
  Live.request_and_stream undisturbed i.

Definition answer (i : Inputs) (text : string) : Script unit :=
  Live.answer undisturbed i text.

Definition submit (i : Inputs) (text : string) : Script unit :=
  Live.submit undisturbed i text.

Definition handle_prompt (i : Inputs) : Script unit :=
  Live.handle_prompt undisturbed i.

Definition dashboard : Script unit := Live.dashboard undisturbed.

Definition export_button : Script unit := Live.export_button undisturbed.

Definition app (i : Inputs) : Script unit := Live.app undisturbed i.

(** One run on the session [s] that the framework does not interrupt: how
    the run ended, and the world it leaves. *)
Definition run_script (i : Inputs) (s : SessionState) : Outcome unit * World :=
  app i (mkWorld s "" []).

(** The session dictionary and the page after one run. *)
Definition step (i : Inputs) (s : SessionState) : SessionState :=
  session_state (snd (run_script i s)).

Definition rendered (i : Inputs) (s : SessionState) : list Event :=
  page (snd (run_script i s)).

(** A session is a sequence of runs; the run the framework starts after
    [st.rerun()] is the next one of the sequence. *)
Definition run_session (ins : list Inputs) (s : SessionState) : SessionState :=
  foldl (fun s i => step i s) s ins.

(** ** Notions used in the statements *)

(** A run in which the user submitted the text [text]. *)
Definition submitted (i : Inputs) (text : string) : Prop :=
  truthy (api_key i) = true /\ reset_clicked i = false /\
  prompt i = Some text /\ text <> "".

(** The persona stored in the session differs from the selected one. *)
Definition persona_changed (i : Inputs) (s : SessionState) : bool :=
  match character s with
  | Some c => negb (String.eqb c (character_key (selected_character i)))
  | None => false
  end.

(** The history a run works on once section 3 is through: nothing when the
    persona changed, the retained history otherwise. *)
Definition carried (i : Inputs) (s : SessionState) : list Message :=
  if persona_changed i s then [] else retained s.

(** The text a chunk delivers; a chunk without delta or content delivers
    none. *)
Definition fragment_text (c : Chunk) : string :=
  match choices c with
  | ch :: _ =>
      match delta ch with
      | Some d => default "" (delta_content d)
      | None => ""
      end
  | [] => ""
  end.

(** A chunk the loop body can index: [chunk.choices[0]] exists. *)
Definition indexable (c : Chunk) : bool :=
  match choices c with
  | [] => false
  | _ :: _ => true
  end.

(** The text received before the loop ends or first raises. *)
Fixpoint accumulated (cs : list Chunk) : string :=
  match cs with
  | [] => ""
  | c :: cs' => if indexable c then fragment_text c ++ accumulated cs' else ""
  end.

(** What is in [full_text] when the [try] block is left. *)
Definition partial_text (r : Response) : string :=
  match r with
  | Refused _ => ""
  | Opened st => accumulated (chunks st)
  end.

(** The completion call succeeds: the request is accepted, every chunk
    can be read and the stream ends without raising. *)
Definition succeeds (r : Response) : bool :=
  match r with
  | Refused _ => false
  | Opened st =>
      forallb indexable (chunks st) &&
      match ending st with Exhausted => true | Broken _ => false end
  end.

(** The exception with which a failing call leaves the [try] block. *)
Fixpoint loop_error (cs : list Chunk) : option Error :=
  match cs with
  | [] => None
  | c :: cs' =>
      if indexable c then loop_error cs'
      else Some (mkError "IndexError" "list index out of range")
  end.

Definition failure (r : Response) : option Error :=
  match r with
  | Refused e => Some e
  | Opened st =>
      match loop_error (chunks st) with
      | Some e => Some e
      | None => match ending st with Exhausted => None | Broken e => Some e end
      end
  end.

(** What the placeholder shows after the writes of [evs]: an [st.empty]
    slot holds its last write. *)
Definition placeholder_after (cur : string) (e : Event) : string :=
  match e with
  | PlaceholderEmpty => ""
  | PlaceholderMarkdown t => t
  | PlaceholderError t => t
  | _ => cur
  end.

Definition shown (evs : list Event) : string :=
  fold_left placeholder_after evs "".

Definition is_markdown_write (e : Event) : Prop :=
  match e with
  | PlaceholderMarkdown _ => True
  | _ => False
  end.

(** The request section 5 builds from the instruction text [instr] and the
    history [sent] (which already ends with the new user entry). *)
Definition request_for (i : Inputs) (instr : string) (sent : list Message)
  : Request :=
  mkRequest (model i) (temperature i) (max_tokens i)
            (mkMessage "system" instr :: window sent) true.

(** What the [except] branch writes. *)
Definition error_report (r : Response) : list Event :=
  match failure r with
  | Some e => [PlaceholderError (error_line e)]
  | None => []
  end.

(** What sections 6 and 7 write for the history [h]. *)
Definition footer (h : list Message) : list Event :=
  [Metric "총 메시지" (length h);
   Metric "사용자 메시지"
          (length (filter (fun m => String.eqb (role m) "user" = true) h))] ++
  match h with
  | [] => []
  | _ :: _ => [DownloadButton (export_markdown h)]
  end.

(** How section 4 draws a retained entry. *)
Definition render (m : Message) : Event := ChatMessage (role m) (content m).

(** The requests a run sent, and the transcripts it offered. *)
Definition requests (evs : list Event) : list Request :=
  omap (fun e => match e with Requested r => Some r | _ => None end) evs.

Definition offered (evs : list Event) : list string :=
  omap (fun e => match e with DownloadButton d => Some d | _ => None end) evs.

(** Every retained entry is a user or an assistant entry. *)
Definition conversational (h : list Message) : Prop :=
  Forall (fun m => role m = "user" \/ role m = "assistant") h.

(** The lines of a text: the pieces between its line feeds. *)
Fixpoint lines (s : string) : list string :=
  match s with
  | EmptyString => [""]
  | String c s' =>
      if Ascii.eqb c "010"%char then "" :: lines s'
      else match lines s' with
           | l :: ls => String c l :: ls
           | [] => [String c ""]
           end
  end.

Fixpoint has_line_feed (s : string) : bool :=
  match s with
  | EmptyString => false
  | String c s' => Ascii.eqb c "010"%char || has_line_feed s'
  end.

(** [x1; ""; x2; ""; ...; xn]: the entries with one blank line between
    neighbours. *)
Fixpoint blank_separated (xs : list string) : list string :=
  match xs with
  | [] => []
  | [x] => [x]
  | x :: xs' => x :: "" :: blank_separated xs'
  end.

(** Roles alternate: user at the even positions, assistant at the odd
    ones. *)
Definition alternating (h : list Message) : Prop :=
  forall (k : nat) (m : Message),
    h !! k = Some m -> role m = if Nat.even k then "user" else "assistant".

(** Every completion call of the run on [s] succeeds. *)
Definition answered (i : Inputs) (s : SessionState) : Prop :=
  Forall (fun r => succeeds (remote i r) = true) (requests (rendered i s)).

(** The runs [ins], started on [s], are submissions under the persona [p]
    whose completion calls all succeed. *)
Fixpoint successful_turns (p : Persona) (ins : list Inputs) (s : SessionState)
  : Prop :=
  match ins with
  | [] => True
  | i :: ins' =>
      (exists text, submitted i text) /\ selected_character i = p /\
      answered i s /\ successful_turns p ins' (step i s)
  end.

(** *** Sample data for the examples *)

Definition text_chunk (t : string) : Chunk :=
  mkChunk [mkChoice (Some (mkDelta (Some t)))].

Definition role_chunk : Chunk := mkChunk [mkChoice (Some (mkDelta None))].

Definition hello_stream : Stream :=
  mkStream [role_chunk; text_chunk "Hi"; text_chunk ""; text_chunk " there"]
           Exhausted.

Definition connection_error : Error :=
  mkError "APIConnectionError" "Connection error.".

Definition broken_stream : Stream :=
  mkStream [text_chunk "Hi"; text_chunk " th"] (Broken connection_error).

(** A run with the credential set, the default widgets, the prompt [p] and
    a service that answers every request with [r]. *)
Definition sample_run (p : option string) (r : Response) : Inputs :=
  mkInputs (Some "sk-test") "gpt-4o-mini" (7 # 10) 1024 FriendlyMentor false
           p (fun _ => r).

(** A session of twelve earlier turns under the default persona. *)
Definition long_session : SessionState :=
  mkSession
    (Some (List.concat
             (repeat [mkMessage "user" "q"; mkMessage "assistant" "a"] 12)))
    (Some (character_key FriendlyMentor)).

(** *** Further views of the page *)

(** A retained entry as [st.chat_message] draws it: who speaks, and what. *)
Definition entry (m : Message) : string * string := (role m, content m).

(** The chat bubbles and the counters a run drew. *)
Definition chat_messages (evs : list Event) : list (string * string) :=
  omap (fun e => match e with ChatMessage who t => Some (who, t) | _ => None end)
       evs.

Definition metrics (evs : list Event) : list (string * nat) :=
  omap (fun e => match e with Metric l v => Some (l, v) | _ => None end) evs.

(** The error elements on the page: [st.error] and [placeholder.error]
    draw the same kind of element. *)
Definition error_elements (evs : list Event) : list string :=
  omap (fun e => match e with
                 | ErrorBox t => Some t
                 | PlaceholderError t => Some t
                 | _ => None
                 end) evs.

(** The history made of the turns [ps], each a prompt and its reply. *)
Definition turns_of (ps : list (string * string)) : list Message :=
  flat_map (fun p => [mkMessage "user" (fst p); mkMessage "assistant" (snd p)])
           ps.


(** A history in which every assistant entry follows the user entry of
    its turn: the turns [bs], each a prompt with its reply or, for a turn
    that was cut short, without one. *)
Definition blocks_of (bs : list (string * option string)) : list Message :=
  flat_map (fun b =>
              mkMessage "user" (fst b) ::
              match snd b with
              | Some r => [mkMessage "assistant" r]
              | None => []
              end) bs.

(** *** Interrupted runs *)

(** The framework never raises inside an [st.*] call. *)
Definition quiet (f : Framework) : Prop := forall n, f n = None.

(** [m], run under [f], goes like [m0] unless the framework ends it in an
    [st.*] call, and then it leaves the session it started with. *)
Definition interruptible {A} (f : Framework) (m m0 : Script A) : Prop :=
  forall w,
    m w = m0 w \/
    exists sig w',
      m w = (Halted sig, w') /\
      f (length (page w')) = Some sig /\
      session_state w' = session_state w.

(** [m0] does not write to the session. *)
Definition keeps_session {A} (m0 : Script A) : Prop :=
  forall w, session_state (snd (m0 w)) = session_state w.

(** The session once section 3 is through, and once the prompt [text] has
    been appended on line 95. *)
Definition prepared (i : Inputs) (s : SessionState) : SessionState :=
  mkSession (Some (carried i s)) (Some (character_key (selected_character i))).

Definition with_prompt (i : Inputs) (s : SessionState) (text : string)
  : SessionState :=
  mkSession (Some (carried i s ++ [mkMessage "user" text]))
            (Some (character_key (selected_character i))).

(** The run ended in an [st.*] call in which the framework raised, with a
    session that satisfies [P]. *)
Definition stopped_by {A} (f : Framework) (P : SessionState -> Prop)
           (r : Outcome A * World) : Prop :=
  exists sig w',
    r = (Halted sig, w') /\ f (length (page w')) = Some sig /\
    P (session_state w').

(** The sessions an interrupted run on [s] can leave: the one it found,
    the one of section 3, that one with the prompt appended, or the one of
    the whole run. *)
Definition left_by (i : Inputs) (s : SessionState) (s' : SessionState) : Prop :=
  s' = s \/
  s' = prepared i s \/
  (exists text, submitted i text /\ s' = with_prompt i s text) \/
  s' = step i s.

(** A framework that raises the rerun exception in the call that would
    draw element number [n] of the run. *)
Definition rerun_at (n : nat) : Framework :=
  fun k => if Nat.eqb k n then Some RerunScript else None.

(** ** Evaluating the script *)

Lemma bind_done {A B} (m : Script A) (k : A -> Script B) w a w' :
  m w = (Done a, w') -> bind m k w = k a w'.
Proof. intros H. unfold bind. now rewrite H. Qed.

Lemma bind_halted {A B} (m : Script A) (k : A -> Script B) w sig w' :
  m w = (Halted sig, w') -> bind m k w = (Halted sig, w').
Proof. intros H. unfold bind. now rewrite H. Qed.

Lemma for_each_app {A} (xs ys : list A) (body : A -> Script unit) w :
  for_each (xs ++ ys) body w = (for_each xs body ;; for_each ys body) w.
Proof.
  revert w. induction xs as [|x xs IH]; intros w; simpl.
  - reflexivity.
  - unfold bind in *. destruct (body x w) as [[[]|e|sig] w']; try reflexivity.
    apply IH.
Qed.

Lemma truthy_some (text : string) : text <> "" -> truthy (Some text) = true.
Proof.
  intros H. simpl. destruct (String.eqb_spec text ""); [contradiction|reflexivity].
Qed.

Lemma truthy_inv (o : option string) :
  truthy o = true -> exists text, o = Some text /\ text <> "".
Proof.
  destruct o as [text|]; simpl; [|discriminate].
  destruct (String.eqb_spec text ""); [discriminate|]. eauto.
Qed.

(** Every option of the select box is a key of [character_prompts]. *)
Lemma persona_has_prompt (p : Persona) :
  exists instr, dict_get character_prompts (character_key p) = Some instr.
Proof. destruct p; vm_compute; eauto. Qed.

(** *** Section 0 *)

Lemma check_api_key_missing i w :
  truthy (api_key i) = false ->
  check_api_key i w =
    (Halted StopScript,
     mkWorld (session_state w) (full_text w)
             (page w ++ [SetPageConfig; ErrorBox missing_key_text])).
Proof.
  intros H. unfold check_api_key, Live.check_api_key. rewrite H. cbn.
  now rewrite <- app_assoc.
Qed.

Lemma check_api_key_present i w :
  truthy (api_key i) = true -> check_api_key i w = (Done tt, w).
Proof. intros H. unfold check_api_key, Live.check_api_key. now rewrite H. Qed.

(** *** Section 2 *)

Lemma sidebar_reset i w :
  reset_clicked i = true ->
  sidebar i w =
    (Halted RerunScript,
     mkWorld empty_session (full_text w) (page w ++ [SetPageConfig])).
Proof. intros H. unfold sidebar, Live.sidebar. rewrite H. reflexivity. Qed.

Lemma sidebar_pass i w :
  reset_clicked i = false ->
  sidebar i w =
    (Done tt, mkWorld (session_state w) (full_text w) (page w ++ [SetPageConfig])).
Proof. intros H. unfold sidebar, Live.sidebar. rewrite H. reflexivity. Qed.

(** *** Section 3 *)

Lemma prepare_session_spec i w :
  prepare_session i w =
    (Done tt,
     mkWorld (mkSession (Some (carried i (session_state w)))
                        (Some (character_key (selected_character i))))
             (full_text w) (page w)).
Proof.
  destruct w as [[[msgs|] [c|]] ft pg];
    unfold prepare_session, carried, persona_changed, retained; cbn;
    try (destruct (String.eqb_spec c (character_key (selected_character i)));
         subst; cbn);
    try rewrite String.eqb_refl; reflexivity.
Qed.

(** *** Section 4 *)

Lemma for_each_show {A} (xs : list A) (f : A -> Event) w :
  for_each xs (fun x => show (f x)) w =
    (Done tt, mkWorld (session_state w) (full_text w) (page w ++ map f xs)).
Proof.
  revert w. induction xs as [|x xs IH]; intros w; simpl.
  - rewrite app_nil_r. now destruct w.
  - unfold bind, show at 1. rewrite IH. cbn. now rewrite <- app_assoc.
Qed.

Lemma render_history_spec msgs c ft pg :
  render_history (mkWorld (mkSession (Some msgs) c) ft pg) =
    (Done tt, mkWorld (mkSession (Some msgs) c) ft (pg ++ map render msgs)).
Proof.
  unfold render_history, Live.render_history.
  change (fun m => st undisturbed (ChatMessage (role m) (content m)))
    with (fun m => show (render m)).
  cbn. now rewrite for_each_show.
Qed.

(** *** Section 5 *)

Lemma string_app_nil_r (s : string) : (s ++ "")%string = s.
Proof. induction s as [|c s IH]; simpl; [reflexivity|now rewrite IH]. Qed.

Lemma string_app_assoc (a b c : string) :
  ((a ++ b) ++ c)%string = (a ++ (b ++ c))%string.
Proof. induction a as [|x a IH]; simpl; [reflexivity|now rewrite IH]. Qed.

Lemma consume_chunk_spec c w :
  consume_chunk c w =
    if indexable c then
      (Done tt,
       mkWorld (session_state w) (full_text w ++ fragment_text c)%string
               (page w ++
                if String.eqb (fragment_text c) "" then []
                else [PlaceholderMarkdown (full_text w ++ fragment_text c)%string]))
    else (Raised (mkError "IndexError" "list index out of range"), w).
Proof.
  unfold consume_chunk, Live.consume_chunk, indexable, fragment_text.
  destruct (choices c) as [|[[[[piece|]]|]] rest]; cbn;
    try (rewrite string_app_nil_r, app_nil_r; now destruct w).
  - reflexivity.
  - destruct (String.eqb_spec piece "") as [->|_]; cbn.
    + rewrite string_app_nil_r, app_nil_r. now destruct w.
    + reflexivity.
Qed.

(** The loop over the chunks: it stops at the first chunk it cannot index;
    up to there every non-empty fragment is appended to [full_text] and the
    placeholder is rewritten with the new [full_text]. *)
Lemma consume_chunks_spec cs w :
  exists evs,
    Forall is_markdown_write evs /\
    fold_left placeholder_after evs (full_text w)
      = (full_text w ++ accumulated cs)%string /\
    for_each cs consume_chunk w =
      (match loop_error cs with Some e => Raised e | None => Done tt end,
       mkWorld (session_state w) (full_text w ++ accumulated cs)%string
               (page w ++ evs)).
Proof.
  revert w. induction cs as [|c cs IH]; intros w; simpl.
  - exists []. rewrite string_app_nil_r, app_nil_r. repeat split; auto.
    now destruct w.
  - unfold bind. rewrite consume_chunk_spec.
    destruct (indexable c).
    + match goal with |- context [for_each cs consume_chunk ?w1] =>
        destruct (IH w1) as (evs & Hmd & Hshown & Hrun) end.
      cbn in Hshown, Hrun. rewrite Hrun.
      rewrite string_app_assoc in *.
      destruct (String.eqb_spec (fragment_text c) "") as [Hempty|_].
      * exists evs. rewrite Hempty in *. cbn in *.
        rewrite string_app_nil_r in Hshown. rewrite app_nil_r.
        repeat split; auto.
      * exists (PlaceholderMarkdown (full_text w ++ fragment_text c)%string :: evs).
        rewrite <- app_assoc. cbn.
        repeat split; auto. constructor; [exact I|assumption].
    + exists []. rewrite string_app_nil_r, app_nil_r. repeat split; auto.
      now destruct w.
Qed.

Lemma request_and_stream_spec i msgs instr ft pg :
  dict_get character_prompts (character_key (selected_character i)) = Some instr ->
  let s := mkSession (Some msgs) (Some (character_key (selected_character i))) in
  let resp := remote i (request_for i instr msgs) in
  exists evs,
    Forall is_markdown_write evs /\
    fold_left placeholder_after evs ft = (ft ++ partial_text resp)%string /\
    request_and_stream i (mkWorld s ft pg) =
      (match failure resp with Some e => Raised e | None => Done tt end,
       mkWorld s (ft ++ partial_text resp)%string
               (pg ++ Requested (request_for i instr msgs) :: evs)).
Proof.
  intros Hinstr s resp.
  unfold request_and_stream, Live.request_and_stream, lookup_prompt, create.
  change (Live.consume_chunk undisturbed) with consume_chunk.
  cbn -[dict_get character_prompts character_key consume_chunk].
  rewrite Hinstr. cbn -[character_key consume_chunk].
  fold (request_for i instr msgs). fold resp.
  destruct resp as [e|st] eqn:Hresp; cbn -[consume_chunk].
  - exists []. rewrite string_app_nil_r. repeat split; auto.
  - destruct (consume_chunks_spec (chunks st)
                (mkWorld s ft (pg ++ [Requested (request_for i instr msgs)])))
      as (evs & Hmd & Hshown & Hrun).
    cbn -[consume_chunk] in Hshown, Hrun. exists evs. unfold bind. rewrite Hrun.
    rewrite <- app_assoc. cbn.
    repeat split; auto.
    unfold stream_end.
    destruct (loop_error (chunks st)); [reflexivity|].
    destruct (ending st); reflexivity.
Qed.

Lemma submit_spec i text msgs instr ft pg :
  dict_get character_prompts (character_key (selected_character i)) = Some instr ->
  let key := character_key (selected_character i) in
  let sent := msgs ++ [mkMessage "user" text] in
  let resp := remote i (request_for i instr sent) in
  exists evs,
    Forall is_markdown_write evs /\
    fold_left placeholder_after evs "" = partial_text resp /\
    submit i text (mkWorld (mkSession (Some msgs) (Some key)) ft pg) =
      (Done tt,
       mkWorld (mkSession (Some (sent ++ [mkMessage "assistant" (partial_text resp)]))
                          (Some key))
               (partial_text resp)
               (pg ++ [ChatMessage "user" text; PlaceholderEmpty;
                       Requested (request_for i instr sent)] ++
                evs ++ error_report resp)).
Proof.
  intros Hinstr key sent resp.
  destruct (request_and_stream_spec i sent instr ""
              ((pg ++ [ChatMessage "user" text]) ++ [PlaceholderEmpty]) Hinstr)
    as (evs & Hmd & Hshown & Hrun).
  cbn in Hshown. fold key sent resp in Hshown, Hrun.
  exists evs. repeat split; auto.
  unfold submit, Live.submit, Live.answer, append_message, try_except.
  change (Live.request_and_stream undisturbed i) with (request_and_stream i).
  unfold st, yield_point, undisturbed, bind, show, set_full_text.
  cbn -[request_and_stream character_key error_line].
  fold key sent. rewrite Hrun.
  unfold error_report.
  destruct (failure resp) as [e|]; cbn -[error_line];
    repeat rewrite <- app_assoc; cbn -[error_line]; try reflexivity.
  now rewrite app_nil_r.
Qed.

(** *** Sections 6 and 7 *)

Lemma footer_spec h c ft pg :
  (dashboard ;; export_button) (mkWorld (mkSession (Some h) c) ft pg) =
    (Done tt, mkWorld (mkSession (Some h) c) ft (pg ++ footer h)).
Proof.
  cbv [dashboard export_button Live.dashboard Live.export_button st yield_point
       undisturbed footer bind read_messages get_session ret show
       session_state messages full_text page].
  destruct h; repeat rewrite <- app_assoc; try rewrite app_nil_r; reflexivity.
Qed.

(** *** A whole run, case by case *)

Ltac open_app :=
  unfold run_script, app, Live.app;
  change (Live.check_api_key undisturbed ?i) with (check_api_key i);
  change (Live.sidebar undisturbed ?i) with (sidebar i);
  change (Live.render_history undisturbed) with render_history;
  change (Live.handle_prompt undisturbed ?i) with (handle_prompt i);
  change (Live.dashboard undisturbed) with dashboard;
  change (Live.export_button undisturbed) with export_button.

Lemma run_missing_key i s :
  truthy (api_key i) = false ->
  run_script i s =
    (Halted StopScript, mkWorld s "" [SetPageConfig; ErrorBox missing_key_text]).
Proof.
  intros Hkey. open_app.
  erewrite bind_halted; [reflexivity|].
  now rewrite check_api_key_missing.
Qed.

Lemma run_reset i s :
  truthy (api_key i) = true -> reset_clicked i = true ->
  run_script i s = (Halted RerunScript, mkWorld empty_session "" [SetPageConfig]).
Proof.
  intros Hkey Hreset. open_app.
  erewrite bind_done; [|now apply check_api_key_present].
  erewrite bind_halted; [reflexivity|].
  now rewrite sidebar_reset.
Qed.

Lemma run_idle i s :
  truthy (api_key i) = true -> reset_clicked i = false ->
  truthy (prompt i) = false ->
  run_script i s =
    (Done tt,
     mkWorld (mkSession (Some (carried i s))
                        (Some (character_key (selected_character i))))
             ""
             (SetPageConfig :: map render (carried i s) ++ footer (carried i s))).
Proof.
  intros Hkey Hreset Hprompt. open_app.
  erewrite bind_done; [|now apply check_api_key_present].
  erewrite bind_done; [|now apply sidebar_pass].
  erewrite bind_done; [|apply prepare_session_spec].
  erewrite bind_done; [|apply render_history_spec].
  unfold handle_prompt, Live.handle_prompt. rewrite Hprompt.
  erewrite bind_done; [|reflexivity].
  rewrite footer_spec. cbn [session_state full_text page].
  now rewrite <- app_assoc.
Qed.

Lemma run_submit i s text :
  submitted i text ->
  let key := character_key (selected_character i) in
  let sent := carried i s ++ [mkMessage "user" text] in
  exists instr evs,
    dict_get character_prompts key = Some instr /\
    Forall is_markdown_write evs /\
    let resp := remote i (request_for i instr sent) in
    let reply := mkMessage "assistant" (partial_text resp) in
    fold_left placeholder_after evs "" = partial_text resp /\
    run_script i s =
      (Done tt,
       mkWorld (mkSession (Some (sent ++ [reply])) (Some key))
               (partial_text resp)
               (SetPageConfig :: map render (carried i s) ++
                [ChatMessage "user" text; PlaceholderEmpty;
                 Requested (request_for i instr sent)] ++
                evs ++ error_report resp ++ footer (sent ++ [reply]))).
Proof.
  intros (Hkey & Hreset & Hprompt & Htext) key sent.
  destruct (persona_has_prompt (selected_character i)) as [instr Hinstr].
  destruct (submit_spec i text (carried i s) instr ""
              (SetPageConfig :: map render (carried i s)) Hinstr)
    as (evs & Hmd & Hshown & Hrun).
  fold key sent in Hshown, Hrun.
  exists instr, evs. repeat split; auto.
  open_app.
  erewrite bind_done; [|now apply check_api_key_present].
  erewrite bind_done; [|now apply sidebar_pass].
  erewrite bind_done; [|apply prepare_session_spec].
  erewrite bind_done; [|apply render_history_spec].
  unfold handle_prompt, Live.handle_prompt.
  rewrite Hprompt, truthy_some by assumption.
  change (Live.submit undisturbed i ?t) with (submit i t).
  erewrite bind_done; [|exact Hrun].
  rewrite footer_spec.
  cbn [app]. repeat rewrite <- app_assoc. reflexivity.
Qed.

(** *** What a run leaves and what it wrote *)

Lemma retained_mk msgs c : retained (mkSession (Some msgs) c) = msgs.
Proof. reflexivity. Qed.


Lemma accumulated_indexable cs :
  forallb indexable cs = true ->
  accumulated cs = String.concat "" (map fragment_text cs).
Proof.
  induction cs as [|c cs IH]; simpl; [reflexivity|].
  destruct (indexable c); simpl; [|discriminate].
  intros H. rewrite (IH H).
  destruct (map fragment_text cs) eqn:E; [|reflexivity].
  simpl. now rewrite string_app_nil_r.
Qed.

Lemma requests_app evs evs' : requests (evs ++ evs') = requests evs ++ requests evs'.
Proof. apply omap_app. Qed.

Lemma offered_app evs evs' : offered (evs ++ evs') = offered evs ++ offered evs'.
Proof. apply omap_app. Qed.

Lemma requests_markdown evs : Forall is_markdown_write evs -> requests evs = [].
Proof.
  induction 1 as [|e evs He _ IH]; [reflexivity|].
  destruct e; try contradiction. exact IH.
Qed.

Lemma offered_markdown evs : Forall is_markdown_write evs -> offered evs = [].
Proof.
  induction 1 as [|e evs He _ IH]; [reflexivity|].
  destruct e; try contradiction. exact IH.
Qed.

Lemma requests_render h : requests (map render h) = [].
Proof. induction h; [reflexivity|assumption]. Qed.

Lemma offered_render h : offered (map render h) = [].
Proof. induction h; [reflexivity|assumption]. Qed.

Lemma requests_error_report r : requests (error_report r) = [].
Proof. unfold error_report. now destruct (failure r). Qed.

Lemma offered_error_report r : offered (error_report r) = [].
Proof. unfold error_report. now destruct (failure r). Qed.

Lemma requests_footer h : requests (footer h) = [].
Proof. now destruct h. Qed.

Lemma offered_footer h :
  offered (footer h) = match h with [] => [] | _ :: _ => [export_markdown h] end.
Proof. now destruct h. Qed.

Lemma carried_keep i s :
  character s = None \/ character s = Some (character_key (selected_character i)) ->
  carried i s = retained s.
Proof.
  unfold carried, persona_changed. intros [-> | ->]; [reflexivity|].
  now rewrite String.eqb_refl.
Qed.

Lemma carried_switch i s c :
  character s = Some c -> c <> character_key (selected_character i) ->
  carried i s = [].
Proof.
  unfold carried, persona_changed. intros -> Hne.
  now destruct (String.eqb_spec c (character_key (selected_character i))).
Qed.

Lemma carried_conversational i s :
  conversational (retained s) -> conversational (carried i s).
Proof.
  unfold carried. destruct (persona_changed i s); [constructor|trivial].
Qed.

(** A run with a submitted prompt. *)
Lemma turn_spec i s text :
  submitted i text ->
  exists instr,
    dict_get character_prompts (character_key (selected_character i)) = Some instr /\
    let sent := carried i s ++ [mkMessage "user" text] in
    let req := request_for i instr sent in
    let resp := remote i req in
    fst (run_script i s) = Done tt /\
    step i s =
      mkSession (Some (sent ++ [mkMessage "assistant" (partial_text resp)]))
                (Some (character_key (selected_character i))) /\
    requests (rendered i s) = [req] /\
    offered (rendered i s) =
      [export_markdown (sent ++ [mkMessage "assistant" (partial_text resp)])] /\
    (forall e, failure resp = Some e ->
               PlaceholderError (error_line e) ∈ rendered i s).
Proof.
  intros Hsub.
  destruct (run_submit i s text Hsub) as (instr & evs & Hinstr & Hmd & Hshown & Hrun).
  exists instr. split; [exact Hinstr|]. cbv zeta in *.
  unfold step, rendered. rewrite Hrun. cbn [fst snd session_state page].
  repeat split.
  - change (SetPageConfig :: ?l) with ([SetPageConfig] ++ l).
    rewrite !requests_app, requests_render, (requests_markdown evs Hmd),
      requests_error_report, requests_footer.
    reflexivity.
  - change (SetPageConfig :: ?l) with ([SetPageConfig] ++ l).
    rewrite !offered_app, offered_render, (offered_markdown evs Hmd),
      offered_error_report, offered_footer.
    now destruct (carried i s).
  - intros e He. unfold error_report. rewrite He.
    rewrite elem_of_cons, !elem_of_app. right. right. right. right. left.
    apply list_elem_of_singleton. reflexivity.
Qed.

(** A run without a submitted prompt. *)
Lemma idle_spec i s :
  truthy (api_key i) = true -> reset_clicked i = false ->
  truthy (prompt i) = false ->
  fst (run_script i s) = Done tt /\
  step i s = mkSession (Some (carried i s))
                       (Some (character_key (selected_character i))) /\
  requests (rendered i s) = [] /\
  offered (rendered i s) =
    match carried i s with [] => [] | _ :: _ => [export_markdown (carried i s)] end.
Proof.
  intros Hkey Hreset Hprompt.
  unfold step, rendered. rewrite (run_idle i s Hkey Hreset Hprompt).
  cbn [fst snd session_state page]. repeat split.
  - change (SetPageConfig :: ?l) with ([SetPageConfig] ++ l).
    now rewrite !requests_app, requests_render, requests_footer.
  - change (SetPageConfig :: ?l) with ([SetPageConfig] ++ l).
    now rewrite !offered_app, offered_render, offered_footer.
Qed.

(** The four ways a run can go. *)
Lemma run_cases i :
  truthy (api_key i) = false \/
  (truthy (api_key i) = true /\ reset_clicked i = true) \/
  (truthy (api_key i) = true /\ reset_clicked i = false /\
   truthy (prompt i) = false) \/
  (exists text, submitted i text).
Proof.
  destruct (truthy (api_key i)) eqn:Hkey; [|now left].
  destruct (reset_clicked i) eqn:Hreset; [right; now left|].
  destruct (truthy (prompt i)) eqn:Hprompt; [|right; right; now left].
  right; right; right.
  destruct (truthy_inv _ Hprompt) as (text & Hp & Hne).
  exists text. unfold submitted. auto.
Qed.

(** Whatever the inputs, a run keeps the history, empties it, or appends
    a user and an assistant entry to the carried history. *)
Lemma step_history i s :
  retained (step i s) = retained s \/
  retained (step i s) = [] \/
  retained (step i s) = carried i s \/
  exists text reply,
    submitted i text /\
    retained (step i s) =
      carried i s ++ [mkMessage "user" text; mkMessage "assistant" reply].
Proof.
  destruct (run_cases i) as [Hkey|[[Hkey Hreset]|[(Hkey & Hreset & Hprompt)|[text Hsub]]]].
  - left. unfold step. now rewrite run_missing_key.
  - right; left. unfold step. now rewrite run_reset.
  - right; right; left.
    destruct (idle_spec i s Hkey Hreset Hprompt) as (_ & -> & _). reflexivity.
  - right; right; right.
    destruct (turn_spec i s text Hsub) as (instr & _ & _ & -> & _).
    eexists _, _. split; [exact Hsub|].
    rewrite ?retained_mk. now rewrite <- app_assoc.
Qed.

(** The transcript is offered only by a run that ends with a non-empty
    history, and then it is the transcript of that whole history. *)
Lemma offered_spec i s :
  offered (rendered i s) = [] \/
  (retained (step i s) <> [] /\
   offered (rendered i s) = [export_markdown (retained (step i s))]).
Proof.
  destruct (run_cases i) as [Hkey|[[Hkey Hreset]|[(Hkey & Hreset & Hprompt)|[text Hsub]]]].
  - left. unfold rendered. now rewrite run_missing_key.
  - left. unfold rendered. now rewrite run_reset.
  - destruct (idle_spec i s Hkey Hreset Hprompt) as (_ & Hstep & _ & Hoff).
    rewrite Hstep, Hoff. rewrite ?retained_mk.
    destruct (carried i s); [now left|right]. split; [discriminate|reflexivity].
  - right. destruct (turn_spec i s text Hsub) as (instr & _ & _ & Hstep & _ & Hoff & _).
    rewrite Hstep, Hoff. rewrite ?retained_mk.
    split; [|reflexivity]. intros H. now apply app_eq_nil in H as [_ ?].
Qed.

(** ** The claims *)

(** *** C1: a failed completion call *)




(** *** C2: the message list of the request *)

Lemma conversational_no_system h :
  conversational h -> Forall (fun m => role m <> "system") h.
Proof.
  intros Hh. eapply Forall_impl; [exact Hh|].
  intros m [H|H]; rewrite H; discriminate.
Qed.

Lemma conversational_snoc h who text :
  conversational h -> who = "user" \/ who = "assistant" ->
  conversational (h ++ [mkMessage who text]).
Proof.
  intros Hh Hwho. apply Forall_app. split; [exact Hh|].
  constructor; [exact Hwho|constructor].
Qed.

(** C2: a submission sends exactly one request.  Its message list is the
    system entry with the instruction text of the selected persona,
    followed by the last 20 entries of the history (the history being the
    carried history and the new user entry); at most 20 history entries
    are sent, none of them a system entry when the history holds user and
    assistant entries only, and the retained history keeps every entry. *)
Theorem C2_request_is_system_entry_and_window i s text :
  submitted i text ->
  conversational (retained s) ->
  exists instr reply,
    dict_get character_prompts (character_key (selected_character i)) = Some instr /\
    let sent := carried i s ++ [mkMessage "user" text] in
    let sent_window := drop (length sent - 20) sent in
    requests (rendered i s) =
      [mkRequest (model i) (temperature i) (max_tokens i)
                 (mkMessage "system" instr :: sent_window) true] /\
    length sent_window = Nat.min 20 (length sent) /\
    (length sent <= 20 -> sent_window = sent) /\
    Forall (fun m => role m <> "system") sent_window /\
    retained (step i s) = sent ++ [mkMessage "assistant" reply].
Proof.
  intros Hsub Hconv.
  destruct (turn_spec i s text Hsub) as (instr & Hinstr & _ & Hstep & Hreq & _).
  exists instr. eexists. split; [exact Hinstr|]. cbv zeta.
  split; [exact Hreq|]. split; [rewrite length_drop; lia|].
  split; [|split].
  - intros Hle. replace (_ - 20) with 0 by lia. reflexivity.
  - apply conversational_no_system.
    apply Forall_drop. apply conversational_snoc; [|now left].
    now apply carried_conversational.
  - rewrite Hstep, retained_mk. reflexivity.
Qed.

Lemma C2_request_is_system_entry_and_window_witness :
  let i := sample_run (Some "Hello") (Opened hello_stream) in
  exists req,
    requests (rendered i long_session) = [req] /\
    length (req_messages req) = 21 /\
    length (retained (step i long_session)) = 26.
Proof.
  cbv zeta.
  destruct (C2_request_is_system_entry_and_window
              (sample_run (Some "Hello") (Opened hello_stream))
              long_session "Hello")
    as (instr & reply & _ & Hreq & _ & _ & _ & Hkeep).
  - unfold submitted. repeat split; [reflexivity..|discriminate].
  - unfold conversational. simpl.
    repeat (constructor; [first [left; reflexivity|right; reflexivity]|]).
    constructor.
  - eexists. split; [exact Hreq|]. split; [reflexivity|].
    rewrite Hkeep. reflexivity.
Defined.

(** *** C3: successful turns *)

Lemma run_session_cons i ins s :
  run_session (i :: ins) s = run_session ins (step i s).
Proof. reflexivity. Qed.

Lemma alternating_turn text reply tail :
  alternating tail ->
  alternating (mkMessage "user" text :: mkMessage "assistant" reply :: tail).
Proof.
  intros Htail k m Hk.
  destruct k as [|[|k]]; simpl in Hk.
  - now injection Hk as <-.
  - now injection Hk as <-.
  - apply Htail in Hk. exact Hk.
Qed.

Lemma successful_turns_history p ins s :
  character s = None \/ character s = Some (character_key p) ->
  successful_turns p ins s ->
  exists tail,
    retained (run_session ins s) = retained s ++ tail /\
    length tail = 2 * length ins /\
    alternating tail.
Proof.
  revert s. induction ins as [|i ins IH]; intros s Hchar Hturns.
  - exists []. rewrite app_nil_r. repeat split; auto. intros k m Hk. inversion Hk.
  - destruct Hturns as ([text Hsub] & Hsel & _ & Hturns).
    destruct (turn_spec i s text Hsub) as (instr & _ & _ & Hstep & _).
    rewrite carried_keep in Hstep by (rewrite Hsel; exact Hchar).
    destruct (IH (step i s)) as (tail & Hrun & Hlen & Halt).
    + right. rewrite Hstep, Hsel. reflexivity.
    + exact Hturns.
    + rewrite run_session_cons, Hrun, Hstep, retained_mk.
      eexists (_ :: _ :: tail). rewrite <- !app_assoc. split; [reflexivity|].
      split; [simpl; lia|]. now apply alternating_turn.
Qed.

(** C3: after [k] submissions whose completion calls all succeed, started
    from an empty history with no persona switch and no reset, the history
    has [2 * k] entries, a user entry at every even index and an assistant
    entry at every odd index. *)
Theorem C3_successful_turns_alternate p ins s :
  retained s = [] ->
  character s = None \/ character s = Some (character_key p) ->
  successful_turns p ins s ->
  length (retained (run_session ins s)) = 2 * length ins /\
  forall (k : nat) (m : Message),
    retained (run_session ins s) !! k = Some m ->
    role m = if Nat.even k then "user" else "assistant".
Proof.
  intros Hempty Hchar Hturns.
  destruct (successful_turns_history p ins s Hchar Hturns) as (tail & -> & Hlen & Halt).
  rewrite Hempty. split; [exact Hlen|exact Halt].
Qed.

Lemma C3_successful_turns_alternate_witness :
  let ins := [sample_run (Some "Hello") (Opened hello_stream);
              sample_run (Some "And you?") (Opened hello_stream)] in
  length (retained (run_session ins empty_session)) = 4 /\
  map role (retained (run_session ins empty_session)) =
    ["user"; "assistant"; "user"; "assistant"].
Proof.
  cbv zeta.
  destruct (C3_successful_turns_alternate FriendlyMentor
              [sample_run (Some "Hello") (Opened hello_stream);
               sample_run (Some "And you?") (Opened hello_stream)]
              empty_session) as [Hlen _].
  - reflexivity.
  - left. reflexivity.
  - assert (Hok : forall i s, remote i = (fun _ => Opened hello_stream) ->
                               answered i s).
    { intros i s Hi. unfold answered. rewrite Hi.
      apply Forall_forall. intros r _. reflexivity. }
    simpl. unfold submitted.
    split; [exists "Hello"; repeat split; [reflexivity..|discriminate]|].
    split; [reflexivity|]. split; [now apply Hok|].
    split; [exists "And you?"; repeat split; [reflexivity..|discriminate]|].
    split; [reflexivity|]. split; [now apply Hok|exact I].
  - split; [exact Hlen|vm_compute; reflexivity].
Defined.

(** *** C4: no system entry in the history *)

Lemma step_conversational i s :
  conversational (retained s) -> conversational (retained (step i s)).
Proof.
  intros Hs.
  destruct (step_history i s) as [->|[->|[->|(text & reply & _ & ->)]]].
  - exact Hs.
  - constructor.
  - now apply carried_conversational.
  - apply Forall_app. split; [now apply carried_conversational|].
    constructor; [now left|]. constructor; [now right|constructor].
Qed.

Lemma run_session_conversational ins s :
  conversational (retained s) -> conversational (retained (run_session ins s)).
Proof.
  revert s. induction ins as [|i ins IH]; intros s Hs; [exact Hs|].
  rewrite run_session_cons. apply IH. now apply step_conversational.
Qed.

(** C4: every run of the script (a submission, a persona switch, a reset
    or any other) keeps the history free of system entries: when all
    retained entries are user or assistant entries before a sequence of
    runs, they are so after it, and no retained entry has the role
    system.  The system entry exists only in the request (C2). *)
Theorem C4_history_holds_no_system_entry ins s :
  conversational (retained s) ->
  conversational (retained (run_session ins s)) /\
  Forall (fun m => role m <> "system") (retained (run_session ins s)).
Proof.
  intros Hs. split.
  - now apply run_session_conversational.
  - apply conversational_no_system. now apply run_session_conversational.
Qed.

Lemma C4_history_holds_no_system_entry_witness :
  let ins := [sample_run (Some "Hello") (Opened hello_stream);
              mkInputs (Some "sk-test") "gpt-4o" (1 # 2) 512 CalmLibrarian false
                       (Some "Hi") (fun _ => Refused connection_error);
              mkInputs (Some "sk-test") "gpt-4o" (1 # 2) 512 CalmLibrarian true
                       None (fun _ => Refused connection_error);
              sample_run (Some "Again") (Opened broken_stream)] in
  Forall (fun m => role m <> "system") (retained (run_session ins empty_session)).
Proof.
  cbv zeta.
  refine (proj2 (C4_history_holds_no_system_entry _ empty_session _)).
  constructor.
Defined.

(** *** C5: switching the persona *)

(** C5: when the persona stored in the session differs from the selected
    one, section 3 of the run empties the history, whatever it held, and
    stores the new persona.  A run without a prompt ends in that state and
    sends nothing; the next request, sent by this run or by a later run
    under the same selection, carries the instruction text of the new
    persona and the new user entry, and nothing else. *)
Theorem C5_persona_switch_clears_history i s c :
  character s = Some c ->
  c <> character_key (selected_character i) ->
  truthy (api_key i) = true ->
  reset_clicked i = false ->
  let key := character_key (selected_character i) in
  (forall ft pg,
     prepare_session i (mkWorld s ft pg) =
       (Done tt, mkWorld (mkSession (Some []) (Some key)) ft pg)) /\
  (truthy (prompt i) = false ->
   step i s = mkSession (Some []) (Some key) /\ requests (rendered i s) = []) /\
  exists instr,
    dict_get character_prompts key = Some instr /\
    (forall text,
       submitted i text ->
       map req_messages (requests (rendered i s)) =
         [[mkMessage "system" instr; mkMessage "user" text]]) /\
    (forall j text,
       truthy (prompt i) = false ->
       submitted j text ->
       selected_character j = selected_character i ->
       map req_messages (requests (rendered j (step i s))) =
         [[mkMessage "system" instr; mkMessage "user" text]]).
Proof.
  intros Hc Hne Hkey Hreset key.
  pose proof (carried_switch i s c Hc Hne) as Hcar.
  split; [|split].
  - intros ft pg. rewrite prepare_session_spec. cbn [session_state full_text page].
    now rewrite Hcar.
  - intros Hprompt.
    destruct (idle_spec i s Hkey Hreset Hprompt) as (_ & Hstep & Hreq & _).
    rewrite Hstep, Hcar. auto.
  - destruct (persona_has_prompt (selected_character i)) as [instr Hinstr].
    exists instr. split; [exact Hinstr|]. split.
    + intros text Hsub.
      destruct (turn_spec i s text Hsub) as (instr' & Hinstr' & _ & _ & Hreq & _).
      rewrite Hinstr in Hinstr'. injection Hinstr' as <-.
      rewrite Hreq, Hcar. reflexivity.
    + intros j text Hprompt Hsub Hsel.
      destruct (idle_spec i s Hkey Hreset Hprompt) as (_ & Hstep & _).
      destruct (turn_spec j (step i s) text Hsub) as (instr' & Hinstr' & _ & _ & Hreq & _).
      rewrite Hsel, Hinstr in Hinstr'. injection Hinstr' as <-.
      rewrite Hreq, carried_keep.
      * rewrite Hstep, retained_mk, Hcar. reflexivity.
      * right. rewrite Hstep, Hsel. reflexivity.
Qed.

Lemma C5_persona_switch_clears_history_witness :
  let i := mkInputs (Some "sk-test") "gpt-4o" (1 # 2) 512 CalmLibrarian false
                    None (fun _ => Opened hello_stream) in
  let j := mkInputs (Some "sk-test") "gpt-4o" (1 # 2) 512 CalmLibrarian false
                    (Some "Hi") (fun _ => Opened hello_stream) in
  retained long_session <> [] /\
  step i long_session = mkSession (Some []) (Some (character_key CalmLibrarian)) /\
  exists instr,
    dict_get character_prompts (character_key CalmLibrarian) = Some instr /\
    map req_messages (requests (rendered j long_session)) =
      [[mkMessage "system" instr; mkMessage "user" "Hi"]] /\
    map req_messages (requests (rendered j (step i long_session))) =
      [[mkMessage "system" instr; mkMessage "user" "Hi"]].
Proof.
  cbv zeta. split; [discriminate|].
  assert (Hj : submitted
                 (mkInputs (Some "sk-test") "gpt-4o" (1 # 2) 512 CalmLibrarian
                           false (Some "Hi") (fun _ => Opened hello_stream))
                 "Hi").
  { unfold submitted. repeat split; [reflexivity..|discriminate]. }
  destruct (C5_persona_switch_clears_history
              (mkInputs (Some "sk-test") "gpt-4o" (1 # 2) 512 CalmLibrarian
                        false None (fun _ => Opened hello_stream))
              long_session (character_key FriendlyMentor))
    as (_ & Hidle & instr & Hinstr & _ & Hnext); try reflexivity.
  { discriminate. }
  destruct (C5_persona_switch_clears_history
              (mkInputs (Some "sk-test") "gpt-4o" (1 # 2) 512 CalmLibrarian
                        false (Some "Hi") (fun _ => Opened hello_stream))
              long_session (character_key FriendlyMentor))
    as (_ & _ & instr' & Hinstr' & Hsame & _); try reflexivity.
  { discriminate. }
  cbn [selected_character] in Hinstr, Hinstr'.
  rewrite Hinstr in Hinstr'. injection Hinstr' as <-.
  split; [exact (proj1 (Hidle eq_refl))|].
  exists instr. split; [exact Hinstr|]. split.
  - exact (Hsame "Hi" Hj).
  - exact (Hnext _ "Hi" eq_refl Hj eq_refl).
Defined.

(** *** C6: the exported transcript *)

Lemma has_line_feed_app a b :
  has_line_feed (a ++ b)%string = has_line_feed a || has_line_feed b.
Proof.
  induction a as [|c a IH]; simpl; [reflexivity|].
  rewrite IH. now rewrite orb_assoc.
Qed.

Lemma lines_single a : has_line_feed a = false -> lines a = [a].
Proof.
  induction a as [|c a IH]; simpl; [reflexivity|].
  destruct (Ascii.eqb c "010"%char); simpl; [discriminate|].
  intros H. now rewrite (IH H).
Qed.

Lemma lines_break a b :
  has_line_feed a = false -> lines (a ++ LF ++ b)%string = a :: lines b.
Proof.
  change (LF ++ b)%string with (String "010"%char b).
  induction a as [|c a IH]; simpl; [reflexivity|].
  destruct (Ascii.eqb c "010"%char); simpl; [discriminate|].
  intros H. now rewrite (IH H).
Qed.

Lemma format_message_single_line m :
  has_line_feed (role m) = false -> has_line_feed (content m) = false ->
  has_line_feed (format_message m) = false.
Proof.
  intros Hr Hc. unfold format_message.
  rewrite !has_line_feed_app, Hr, Hc. reflexivity.
Qed.

Lemma export_markdown_cons m m' h :
  export_markdown (m :: m' :: h) =
    (format_message m ++ LF ++ LF ++ export_markdown (m' :: h))%string.
Proof. reflexivity. Qed.

Lemma lines_export_markdown h :
  h <> [] ->
  Forall (fun m => has_line_feed (role m) = false /\
                   has_line_feed (content m) = false) h ->
  lines (export_markdown h) = blank_separated (map format_message h).
Proof.
  induction h as [|m [|m' h] IH]; intros Hne Hall; [contradiction| |].
  - apply Forall_cons in Hall as [[Hr Hc] _].
    apply lines_single. now apply format_message_single_line.
  - apply Forall_cons in Hall as [[Hr Hc] Hall].
    rewrite export_markdown_cons, lines_break
      by now apply format_message_single_line.
    change (lines (LF ++ export_markdown (m' :: h))%string)
      with ("" :: lines (export_markdown (m' :: h))).
    rewrite IH by (auto; discriminate). reflexivity.
Qed.

Lemma length_blank_separated xs :
  length (blank_separated xs) = 2 * length xs - 1.
Proof.
  induction xs as [|x [|y xs] IH]; [reflexivity..|].
  change (length (blank_separated (x :: y :: xs)))
    with (S (S (length (blank_separated (y :: xs))))).
  rewrite IH. simpl. lia.
Qed.

Lemma export_button_keeps_session w :
  session_state (snd (export_button w)) = session_state w.
Proof.
  unfold export_button, Live.export_button, st, yield_point, undisturbed,
    read_messages, get_session, bind, ret, raise, show.
  destruct (messages (session_state w)) as [[|m h]|]; reflexivity.
Qed.

Lemma offered_completed i s :
  truthy (api_key i) = true -> reset_clicked i = false ->
  retained (step i s) <> [] ->
  offered (rendered i s) = [export_markdown (retained (step i s))].
Proof.
  intros Hkey Hreset Hne.
  destruct (truthy (prompt i)) eqn:Hprompt.
  - destruct (truthy_inv _ Hprompt) as (text & Hp & Htext).
    destruct (turn_spec i s text) as (instr & _ & _ & Hstep & _ & Hoff & _).
    { unfold submitted. auto. }
    rewrite Hoff, Hstep, retained_mk. reflexivity.
  - destruct (idle_spec i s Hkey Hreset Hprompt) as (_ & Hstep & _ & Hoff).
    rewrite Hstep, retained_mk in *. rewrite Hoff.
    now destruct (carried i s).
Qed.

(** C6, as stated, fails: the transcript of a single message whose content
    holds a line feed has two lines. *)
Lemma C6_content_with_line_feed_spans_lines :
  let h := [mkMessage "user" ("a" ++ LF ++ "b")] in
  h <> [] /\
  lines (export_markdown h) = ["**user**: a"; "b"] /\
  length (lines (export_markdown h)) <> length h.
Proof. cbv zeta. repeat split; discriminate. Qed.

(** C6 (amended): a run that completes with a non-empty history offers
    exactly one transcript, computed from the whole retained history: the
    entries ["**role**: content"], one per retained message in the order of
    the history, joined by two line feeds.  Where no message holds a line
    feed, every entry is one line and the lines of the transcript are the
    entries with one blank line between neighbours.  Section 7 leaves the
    session as it finds it. *)
Theorem C6_export_renders_whole_history i s :
  truthy (api_key i) = true ->
  reset_clicked i = false ->
  retained (step i s) <> [] ->
  let h := retained (step i s) in
  offered (rendered i s) = [String.concat (LF ++ LF) (map format_message h)] /\
  (forall m, format_message m = ("**" ++ role m ++ "**: " ++ content m)%string) /\
  (Forall (fun m => has_line_feed (role m) = false /\
                    has_line_feed (content m) = false) h ->
   lines (String.concat (LF ++ LF) (map format_message h)) =
     blank_separated (map format_message h) /\
   length (lines (String.concat (LF ++ LF) (map format_message h))) =
     2 * length h - 1) /\
  (forall w, session_state (snd (export_button w)) = session_state w).
Proof.
  intros Hkey Hreset Hne h. split; [|split; [|split]].
  - now apply offered_completed.
  - reflexivity.
  - intros Hall.
    pose proof (lines_export_markdown h Hne Hall) as Hlines.
    unfold export_markdown in Hlines. rewrite Hlines.
    split; [reflexivity|].
    now rewrite length_blank_separated, length_map.
  - apply export_button_keeps_session.
Qed.

Lemma C6_export_renders_whole_history_witness :
  let i := sample_run (Some "Hello") (Opened hello_stream) in
  let h := retained (step i long_session) in
  offered (rendered i long_session) =
    [String.concat (LF ++ LF) (map format_message h)] /\
  length (lines (String.concat (LF ++ LF) (map format_message h))) =
    2 * length h - 1.
Proof.
  cbv zeta.
  destruct (C6_export_renders_whole_history
              (sample_run (Some "Hello") (Opened hello_stream)) long_session)
    as (Hoff & _ & Hlines & _);
    [vm_compute; reflexivity|vm_compute; reflexivity|vm_compute; discriminate|].
  split; [exact Hoff|].
  destruct Hlines as [_ Hlen].
  - vm_compute. repeat constructor.
  - exact Hlen.
Defined.

(** *** C7: the streamed reply *)

Lemma loop_error_indexable cs : forallb indexable cs = true -> loop_error cs = None.
Proof.
  induction cs as [|c cs IH]; simpl; [reflexivity|].
  destruct (indexable c); simpl; [exact IH|discriminate].
Qed.

Lemma shown_app evs evs' :
  shown (evs ++ evs') = fold_left placeholder_after evs' (shown evs).
Proof. apply fold_left_app. Qed.

(** The loop after the chunks [pre], all of them readable. *)
Lemma consume_prefix pre w :
  forallb indexable pre = true ->
  shown (page w) = full_text w ->
  exists w',
    for_each pre consume_chunk w = (Done tt, w') /\
    session_state w' = session_state w /\
    full_text w' =
      (full_text w ++ String.concat "" (map fragment_text pre))%string /\
    shown (page w') = full_text w'.
Proof.
  intros Hpre Hshown.
  destruct (consume_chunks_spec pre w) as (evs & _ & Hfold & Hrun).
  rewrite (loop_error_indexable pre Hpre) in Hrun.
  rewrite (accumulated_indexable pre Hpre) in *.
  eexists. split; [exact Hrun|]. cbn [session_state full_text page].
  repeat split. now rewrite shown_app, Hshown.
Qed.

(** C7: when the completion call of a submission succeeds, the assistant
    entry appended to the history holds the texts of the streamed chunks,
    concatenated in the order of delivery (a chunk without text adds
    nothing).  While the loop runs, after any number of chunks both
    [full_text] and the text shown in the placeholder are the concatenation
    of the texts of the chunks read so far. *)
Theorem C7_reply_concatenates_the_fragments i s text req st :
  submitted i text ->
  requests (rendered i s) = [req] ->
  remote i req = Opened st ->
  succeeds (remote i req) = true ->
  retained (step i s) =
    carried i s ++
    [mkMessage "user" text;
     mkMessage "assistant" (String.concat "" (map fragment_text (chunks st)))] /\
  forall pre post w,
    chunks st = pre ++ post ->
    full_text w = "" ->
    shown (page w) = "" ->
    exists w',
      for_each pre consume_chunk w = (Done tt, w') /\
      for_each (chunks st) consume_chunk w = for_each post consume_chunk w' /\
      full_text w' = String.concat "" (map fragment_text pre) /\
      shown (page w') = String.concat "" (map fragment_text pre).
Proof.
  intros Hsub Hreq Hresp Hok.
  assert (Hcs : forallb indexable (chunks st) = true).
  { rewrite Hresp in Hok. simpl in Hok. now apply andb_true_iff in Hok as [? _]. }
  split.
  - destruct (turn_spec i s text Hsub) as (instr & _ & _ & Hstep & Hreq' & _).
    rewrite Hreq in Hreq'. injection Hreq' as ->.
    rewrite Hstep, retained_mk, Hresp. cbn [partial_text].
    rewrite (accumulated_indexable _ Hcs), <- app_assoc. reflexivity.
  - intros pre post w Hsplit Hft Hshown.
    rewrite Hsplit in *.
    rewrite forallb_app in Hcs. apply andb_true_iff in Hcs as [Hpre _].
    destruct (consume_prefix pre w Hpre) as (w' & Hrun & _ & Hft' & Hshown').
    { now rewrite Hshown, Hft. }
    rewrite Hft in Hft'. cbn in Hft'.
    exists w'. split; [exact Hrun|]. split.
    + rewrite for_each_app. unfold bind. now rewrite Hrun.
    + split; [exact Hft'|]. now rewrite Hshown', Hft'.
Qed.

Lemma C7_reply_concatenates_the_fragments_witness :
  let i := sample_run (Some "Hello") (Opened hello_stream) in
  retained (step i empty_session) =
    [mkMessage "user" "Hello"; mkMessage "assistant" "Hi there"] /\
  exists w',
    for_each [role_chunk; text_chunk "Hi"] consume_chunk
             (mkWorld empty_session "" [PlaceholderEmpty]) = (Done tt, w') /\
    shown (page w') = "Hi".
Proof.
  cbv zeta.
  destruct (C7_reply_concatenates_the_fragments
              (sample_run (Some "Hello") (Opened hello_stream)) empty_session
              "Hello"
              (request_for (sample_run (Some "Hello") (Opened hello_stream))
                 (default "" (dict_get character_prompts
                                       (character_key FriendlyMentor)))
                 [mkMessage "user" "Hello"])
              hello_stream)
    as [Hhist Hloop]; try reflexivity.
  - unfold submitted. repeat split; [reflexivity..|discriminate].
  - split; [exact Hhist|].
    destruct (Hloop [role_chunk; text_chunk "Hi"]
                    [text_chunk ""; text_chunk " there"]
                    (mkWorld empty_session "" [PlaceholderEmpty]))
      as (w' & Hrun & _ & _ & Hshown); try reflexivity.
    exists w'. split; [exact Hrun|exact Hshown].
Defined.

(** *** C8: the missing credential *)

(** C8: when the credential is not set (or is the empty string), the run
    writes the page header and one error box with the instructions, and
    then stops: the session is untouched and nothing else is written.
    When it is set, the run is not stopped: it ends in the rerun of a reset
    or runs to its end with the session keys set. *)
Theorem C8_missing_credential_stops_the_run i s :
  (truthy (api_key i) = false ->
   run_script i s =
     (Halted StopScript,
      mkWorld s "" [SetPageConfig; ErrorBox missing_key_text])) /\
  (truthy (api_key i) = true ->
   if reset_clicked i
   then fst (run_script i s) = Halted RerunScript
   else fst (run_script i s) = Done tt /\
        is_Some (messages (step i s)) /\
        character (step i s) = Some (character_key (selected_character i))).
Proof.
  split.
  - apply run_missing_key.
  - intros Hkey. destruct (reset_clicked i) eqn:Hreset.
    + now rewrite run_reset.
    + destruct (truthy (prompt i)) eqn:Hprompt.
      * destruct (truthy_inv _ Hprompt) as (text & Hp & Htext).
        destruct (turn_spec i s text) as (instr & _ & Hdone & Hstep & _).
        { unfold submitted. auto. }
        rewrite Hstep. cbn [messages character]. eauto.
      * destruct (idle_spec i s Hkey Hreset Hprompt) as (Hdone & Hstep & _).
        rewrite Hstep. cbn [messages character]. eauto.
Qed.

Lemma C8_missing_credential_stops_the_run_witness :
  step (mkInputs None "gpt-4o-mini" (7 # 10) 1024 FriendlyMentor false
                 (Some "Hello") (fun _ => Opened hello_stream))
       long_session = long_session /\
  fst (run_script (sample_run (Some "Hello") (Opened hello_stream)) long_session)
    = Done tt.
Proof.
  split.
  - unfold step.
    rewrite (proj1 (C8_missing_credential_stops_the_run
                      (mkInputs None "gpt-4o-mini" (7 # 10) 1024 FriendlyMentor
                                false (Some "Hello")
                                (fun _ => Opened hello_stream))
                      long_session) eq_refl).
    reflexivity.
  - exact (proj1 (proj2 (C8_missing_credential_stops_the_run
                           (sample_run (Some "Hello") (Opened hello_stream))
                           long_session) eq_refl)).
Defined.

(** *** C9: no export without history *)

(** C9: a run that ends with an empty history does not offer the
    transcript: the download button (and with it the computation of the
    transcript) is absent from the page. *)
Theorem C9_empty_history_offers_no_export i s :
  retained (step i s) = [] ->
  offered (rendered i s) = [] /\
  forall d, DownloadButton d ∉ rendered i s.
Proof.
  intros Hempty.
  assert (Hoff : offered (rendered i s) = []).
  { destruct (offered_spec i s) as [H|[Hne _]]; [exact H|contradiction]. }
  split; [exact Hoff|].
  intros d Hin. unfold offered in Hoff.
  assert (Hd : d ∈ @nil string); [|inversion Hd].
  rewrite <- Hoff. apply list_elem_of_omap. exists (DownloadButton d). auto.
Qed.

Lemma C9_empty_history_offers_no_export_witness :
  offered (rendered (sample_run None (Opened hello_stream)) empty_session) = [].
Proof.
  exact (proj1 (C9_empty_history_offers_no_export
                  (sample_run None (Opened hello_stream)) empty_session eq_refl)).
Defined.

(** *** Runs that the framework interrupts *)

Lemma interruptible_same {A} f (m : Script A) : interruptible f m m.
Proof. intros w. now left. Qed.

Lemma interruptible_yield f : interruptible f (yield_point f) (yield_point undisturbed).
Proof.
  intros w. unfold yield_point, undisturbed.
  destruct (f (length (page w))) as [sig|] eqn:Hf; [right|now left].
  exists sig, w. auto.
Qed.

Lemma keeps_session_ret {A} (a : A) : keeps_session (ret a).
Proof. intros w. reflexivity. Qed.

Lemma keeps_session_raise {A} e : keeps_session (@raise A e).
Proof. intros w. reflexivity. Qed.

Lemma keeps_session_halt {A} sig : keeps_session (@halt A sig).
Proof. intros w. reflexivity. Qed.

Lemma keeps_session_show e : keeps_session (show e).
Proof. intros w. reflexivity. Qed.

Lemma keeps_session_yield : keeps_session (yield_point undisturbed).
Proof. intros w. reflexivity. Qed.

Lemma keeps_session_get_full_text : keeps_session get_full_text.
Proof. intros w. reflexivity. Qed.

Lemma keeps_session_set_full_text t : keeps_session (set_full_text t).
Proof. intros w. reflexivity. Qed.

Lemma keeps_session_get_session : keeps_session get_session.
Proof. intros w. reflexivity. Qed.

Lemma keeps_session_bind {A B} (m : Script A) (k : A -> Script B) :
  keeps_session m -> (forall a, keeps_session (k a)) -> keeps_session (bind m k).
Proof.
  intros Hm Hk w. unfold bind. specialize (Hm w).
  destruct (m w) as [[a|e|sig] w1]; cbn in *; [|assumption..].
  now rewrite Hk.
Qed.

Lemma keeps_session_try body handler :
  keeps_session body -> (forall e, keeps_session (handler e)) ->
  keeps_session (try_except body handler).
Proof.
  intros Hb Hh w. unfold try_except. specialize (Hb w).
  destruct (body w) as [[a|e|sig] w1]; cbn in *; [assumption| |assumption].
  now rewrite Hh.
Qed.

Lemma keeps_session_for_each {A} (xs : list A) body :
  (forall x, keeps_session (body x)) -> keeps_session (for_each xs body).
Proof.
  intros Hb. induction xs as [|x xs IH]; simpl.
  - apply keeps_session_ret.
  - apply keeps_session_bind; auto.
Qed.

Lemma keeps_session_st e : keeps_session (st undisturbed e).
Proof. intros w. reflexivity. Qed.

Lemma keeps_session_read_messages : keeps_session read_messages.
Proof.
  intros w. unfold read_messages, get_session, bind.
  now destruct (messages (session_state w)).
Qed.

Lemma keeps_session_read_character : keeps_session read_character.
Proof.
  intros w. unfold read_character, get_session, bind.
  now destruct (character (session_state w)).
Qed.

Lemma keeps_session_lookup_prompt c : keeps_session (lookup_prompt c).
Proof. intros w. unfold lookup_prompt. now destruct (dict_get _ _). Qed.

Lemma keeps_session_create i r : keeps_session (create i r).
Proof. intros w. unfold create, bind, show. now destruct (remote i r). Qed.

Lemma keeps_session_stream_end s : keeps_session (stream_end s).
Proof. intros w. unfold stream_end. now destruct (ending s). Qed.

Lemma interruptible_bind {A B} f (m m0 : Script A) (k k0 : A -> Script B) :
  interruptible f m m0 -> keeps_session m0 ->
  (forall a, interruptible f (k a) (k0 a)) ->
  interruptible f (bind m k) (bind m0 k0).
Proof.
  intros Hm Hkeep Hk w. unfold bind.
  destruct (Hm w) as [->|(sig & w' & -> & Hf & Hs)].
  - specialize (Hkeep w).
    destruct (m0 w) as [[a|e|sig] w1]; cbn in *; [|now left..].
    destruct (Hk a w1) as [->|(sig & w' & -> & Hf & Hs)]; [now left|right].
    exists sig, w'. rewrite Hs, Hkeep. auto.
  - right. exists sig, w'. auto.
Qed.

Lemma interruptible_try f body body0 handler handler0 :
  interruptible f body body0 -> keeps_session body0 ->
  (forall e, interruptible f (handler e) (handler0 e)) ->
  interruptible f (try_except body handler) (try_except body0 handler0).
Proof.
  intros Hb Hkeep Hh w. unfold try_except.
  destruct (Hb w) as [->|(sig & w' & -> & Hf & Hs)].
  - specialize (Hkeep w).
    destruct (body0 w) as [[a|e|sig] w1]; cbn in *; [now left| |now left].
    destruct (Hh e w1) as [->|(sig & w' & -> & Hf & Hs)]; [now left|right].
    exists sig, w'. rewrite Hs, Hkeep. auto.
  - right. exists sig, w'. auto.
Qed.

Lemma interruptible_for_each {A} f (xs : list A) body body0 :
  (forall x, interruptible f (body x) (body0 x)) ->
  (forall x, keeps_session (body0 x)) ->
  interruptible f (for_each xs body) (for_each xs body0).
Proof.
  intros Hb Hkeep. induction xs as [|x xs IH]; simpl.
  - apply interruptible_same.
  - apply interruptible_bind; auto.
Qed.

Lemma interruptible_st f e : interruptible f (st f e) (st undisturbed e).
Proof.
  unfold st. apply interruptible_bind.
  - apply interruptible_yield.
  - apply keeps_session_yield.
  - intros _. apply interruptible_same.
Qed.

Ltac keeps :=
  repeat (intros; cbn beta zeta;
          first [ assumption
                | match goal with H : forall x, keeps_session _ |- _ => apply H end
                | apply keeps_session_ret | apply keeps_session_raise
                | apply keeps_session_halt | apply keeps_session_show
                | apply keeps_session_yield | apply keeps_session_st
                | apply keeps_session_get_full_text
                | apply keeps_session_set_full_text
                | apply keeps_session_get_session
                | apply keeps_session_read_messages
                | apply keeps_session_read_character
                | apply keeps_session_lookup_prompt
                | apply keeps_session_create | apply keeps_session_stream_end
                | apply keeps_session_bind | apply keeps_session_try
                | apply keeps_session_for_each ]).

Ltac interrupts :=
  repeat (intros; cbn beta zeta;
          first [ assumption
                | match goal with H : forall x, interruptible _ _ _ |- _ => apply H end
                | apply interruptible_same | apply interruptible_st
                | apply interruptible_yield
                | apply interruptible_bind | apply interruptible_try
                | apply interruptible_for_each
                | progress keeps ]).

Lemma keeps_session_consume_chunk c : keeps_session (consume_chunk c).
Proof.
  unfold consume_chunk, Live.consume_chunk.
  destruct (choices c) as [|[[[[piece|]]|]] rest];
    cbn [delta delta_content]; keeps.
  destruct (negb (String.eqb piece "")); keeps.
Qed.

Lemma live_consume_chunk f c :
  interruptible f (Live.consume_chunk f c) (consume_chunk c).
Proof.
  unfold consume_chunk, Live.consume_chunk.
  destruct (choices c) as [|[[[[piece|]]|]] rest];
    cbn [delta delta_content]; interrupts.
  destruct (negb (String.eqb piece "")); interrupts.
Qed.

Lemma keeps_session_request_and_stream i : keeps_session (request_and_stream i).
Proof.
  unfold request_and_stream, Live.request_and_stream.
  change (Live.consume_chunk undisturbed) with consume_chunk.
  pose proof keeps_session_consume_chunk.
  keeps.
Qed.

Lemma live_request_and_stream f i :
  interruptible f (Live.request_and_stream f i) (request_and_stream i).
Proof.
  unfold request_and_stream, Live.request_and_stream.
  change (Live.consume_chunk undisturbed) with consume_chunk.
  pose proof keeps_session_consume_chunk. pose proof (live_consume_chunk f).
  interrupts.
Qed.

Lemma keeps_session_answer i text : keeps_session (answer i text).
Proof.
  unfold answer, Live.answer.
  change (Live.request_and_stream undisturbed i) with (request_and_stream i).
  pose proof (keeps_session_request_and_stream i).
  keeps.
Qed.

Lemma live_answer f i text :
  interruptible f (Live.answer f i text) (answer i text).
Proof.
  unfold answer, Live.answer.
  change (Live.request_and_stream undisturbed i) with (request_and_stream i).
  pose proof (keeps_session_request_and_stream i).
  pose proof (live_request_and_stream f i).
  interrupts.
Qed.

Lemma live_check_api_key f i :
  interruptible f (Live.check_api_key f i) (check_api_key i).
Proof.
  unfold check_api_key, Live.check_api_key, st_stop.
  destruct (negb (truthy (api_key i))); interrupts.
Qed.

Lemma live_render_history f :
  interruptible f (Live.render_history f) render_history.
Proof. unfold render_history, Live.render_history. interrupts. Qed.

Lemma keeps_session_footer : keeps_session (dashboard ;; export_button).
Proof.
  unfold dashboard, export_button, Live.dashboard, Live.export_button.
  keeps. destruct a0; keeps.
Qed.

Lemma live_footer f :
  interruptible f (Live.dashboard f ;; Live.export_button f)
                  (dashboard ;; export_button).
Proof.
  unfold dashboard, export_button, Live.dashboard, Live.export_button.
  interrupts; destruct a0; interrupts.
Qed.

Lemma live_sidebar f i : interruptible f (Live.sidebar f i) (sidebar i).
Proof. unfold sidebar, Live.sidebar. interrupts. Qed.

Lemma interruptible_stopped {A} f (m m0 : Script A) (P : SessionState -> Prop) w :
  interruptible f m m0 -> P (session_state w) ->
  m w = m0 w \/ stopped_by f P (m w).
Proof.
  intros Hm HP. destruct (Hm w) as [->|(sig & w' & Hrun & Hf & Hs)]; [now left|].
  right. exists sig, w'. rewrite Hs. auto.
Qed.

(** One more section of the run. *)
Lemma chain {A B} f (P : SessionState -> Prop)
      (m m0 : Script A) (k k0 : A -> Script B) w :
  m w = m0 w \/ stopped_by f P (m w) ->
  (forall a w1, m0 w = (Done a, w1) ->
                k a w1 = k0 a w1 \/ stopped_by f P (k a w1)) ->
  bind m k w = bind m0 k0 w \/ stopped_by f P (bind m k w).
Proof.
  intros [Hm|(sig & w' & Hm & Hf & HP)] Hk; unfold bind; rewrite Hm.
  - destruct (m0 w) as [[a|e|sig] w1]; [|now left..].
    now apply Hk.
  - right. exists sig, w'. auto.
Qed.

Lemma live_submit f i text msgs c ft pg :
  let w := mkWorld (mkSession (Some msgs) c) ft pg in
  Live.submit f i text w = submit i text w \/
  stopped_by f (eq (mkSession (Some (msgs ++ [mkMessage "user" text])) c))
             (Live.submit f i text w).
Proof.
  intros w. unfold submit, Live.submit.
  apply chain; [now left|]. intros [] w1 Hw1.
  unfold append_message, write_messages, read_messages, put_session,
    get_session, bind, ret in Hw1. cbn in Hw1. injection Hw1 as <-.
  change (Live.answer undisturbed i text) with (answer i text).
  apply chain; [|intros; now left].
  apply interruptible_stopped; [apply live_answer|reflexivity].
Qed.

Lemma live_handle_prompt f i msgs c ft pg :
  let w := mkWorld (mkSession (Some msgs) c) ft pg in
  Live.handle_prompt f i w = handle_prompt i w \/
  stopped_by f (fun s' =>
                  s' = mkSession (Some msgs) c \/
                  exists text,
                    prompt i = Some text /\ text <> "" /\
                    s' = mkSession (Some (msgs ++ [mkMessage "user" text])) c)
             (Live.handle_prompt f i w).
Proof.
  intros w. unfold handle_prompt, Live.handle_prompt.
  apply chain.
  - apply interruptible_stopped; [apply interruptible_yield|now left].
  - intros [] w1 Hw1. injection Hw1 as <-.
    destruct (truthy (prompt i)) eqn:Hprompt; [|now left].
    destruct (truthy_inv _ Hprompt) as (text & Hp & Htext).
    rewrite Hp. cbn [default from_option id].
    change (Live.submit undisturbed i text) with (submit i text).
    destruct (live_submit f i text msgs c ft pg) as [H|(sig & w' & H & Hf & Hs)];
      [now left|right].
    exists sig, w'. split; [exact H|]. split; [exact Hf|].
    right. exists text. auto.
Qed.

Lemma step_idle i s :
  truthy (api_key i) = true -> reset_clicked i = false ->
  truthy (prompt i) = false -> step i s = prepared i s.
Proof. intros Hkey Hreset Hprompt. now destruct (idle_spec i s Hkey Hreset Hprompt) as (_ & -> & _). Qed.

(** A run under any framework goes like the run that is not interrupted,
    or ends in an [st.*] call with one of four sessions. *)
Lemma live_run f i s :
  Live.run_script f i s = run_script i s \/
  stopped_by f (left_by i s) (Live.run_script f i s).
Proof.
  unfold Live.run_script, run_script, app, Live.app.
  change (Live.check_api_key undisturbed i) with (check_api_key i).
  change (Live.sidebar undisturbed i) with (sidebar i).
  change (Live.render_history undisturbed) with render_history.
  change (Live.handle_prompt undisturbed i) with (handle_prompt i).
  change (Live.dashboard undisturbed) with dashboard.
  change (Live.export_button undisturbed) with export_button.
  apply chain.
  { apply interruptible_stopped; [apply live_check_api_key|now left]. }
  intros [] w1 Hcheck.
  destruct (truthy (api_key i)) eqn:Hkey;
    [|rewrite check_api_key_missing in Hcheck by assumption; discriminate].
  rewrite check_api_key_present in Hcheck by assumption. injection Hcheck as <-.
  apply chain.
  { apply interruptible_stopped; [apply live_sidebar|now left]. }
  intros [] w1 Hside.
  destruct (reset_clicked i) eqn:Hreset;
    [rewrite sidebar_reset in Hside by assumption; discriminate|].
  rewrite sidebar_pass in Hside by assumption. injection Hside as <-.
  cbn [session_state full_text page app].
  apply chain; [now left|].
  intros [] w1 Hprep. rewrite prepare_session_spec in Hprep.
  injection Hprep as <-. cbn [session_state full_text page].
  apply chain.
  { apply interruptible_stopped; [apply live_render_history|].
    right; left. reflexivity. }
  intros [] w1 Hrender. rewrite render_history_spec in Hrender.
  injection Hrender as <-.
  apply chain.
  { match goal with |- context [Live.handle_prompt f i ?w] =>
      destruct (live_handle_prompt f i (carried i s)
                  (Some (character_key (selected_character i))) ""
                  (page w)) as [H|(sig & w' & H & Hf & Hs)]
    end; [now left|right].
    exists sig, w'. split; [exact H|]. split; [exact Hf|].
    destruct Hs as [->|(text & Hp & Htext & ->)]; [right; now left|].
    right; right; left. exists text. unfold submitted. auto. }
  intros [] w1 Hprompt.
  apply interruptible_stopped; [apply live_footer|].
  right; right; right.
  unfold step. open_app.
  erewrite bind_done; [|now apply check_api_key_present].
  erewrite bind_done; [|now apply sidebar_pass].
  erewrite bind_done; [|apply prepare_session_spec].
  erewrite bind_done; [|apply render_history_spec].
  erewrite bind_done; [|exact Hprompt].
  symmetry. apply keeps_session_footer.
Qed.

Lemma live_run_done f i s :
  fst (Live.run_script f i s) = Done tt ->
  Live.run_script f i s = run_script i s.
Proof.
  intros Hdone.
  destruct (live_run f i s) as [H|(sig & w' & H & _)]; [exact H|].
  rewrite H in Hdone. discriminate.
Qed.

Lemma live_run_quiet f i s :
  quiet f -> Live.run_script f i s = run_script i s.
Proof.
  intros Hquiet.
  destruct (live_run f i s) as [H|(sig & w' & _ & Hf & _)]; [exact H|].
  rewrite Hquiet in Hf. discriminate.
Qed.

Lemma live_step_left_by f i s : left_by i s (Live.step f i s).
Proof.
  unfold Live.step.
  destruct (live_run f i s) as [->|(sig & w' & -> & _ & H)]; [|exact H].
  right; right; right. reflexivity.
Qed.

Lemma done_inv i s :
  fst (run_script i s) = Done tt ->
  truthy (api_key i) = true /\ reset_clicked i = false.
Proof.
  intros Hdone.
  destruct (truthy (api_key i)) eqn:Hkey;
    [|rewrite run_missing_key in Hdone by assumption; discriminate].
  destruct (reset_clicked i) eqn:Hreset;
    [rewrite run_reset in Hdone by assumption; discriminate|].
  auto.
Qed.

Lemma submitted_text i text text' :
  submitted i text -> submitted i text' -> text' = text.
Proof. intros (_ & _ & Hp & _) (_ & _ & Hp' & _). congruence. Qed.

(** *** C10: two entries for every submission *)

Lemma carried_even i s :
  Nat.even (length (carried i s)) = true ->
  forall text reply,
    Nat.even (length (carried i s ++ [mkMessage "user" text;
                                      mkMessage "assistant" reply])) = true.
Proof. intros H text reply. rewrite length_app, Nat.even_add, H. reflexivity. Qed.

(** C10, as stated, fails: the framework can end a run inside an [st.*]
    call between the two appends.  A submission whose run is ended in the
    first rewrite of the placeholder, after the request was sent, leaves the
    user entry alone; after the next submission, which runs to its end, the
    history has three entries. *)
Lemma C10_interrupted_submission_appends_the_prompt_only :
  let i := sample_run (Some "Hello") (Opened hello_stream) in
  let j := sample_run (Some "Again") (Opened hello_stream) in
  let s := Live.step (rerun_at 4) i empty_session in
  submitted i "Hello" /\
  length (requests (Live.rendered (rerun_at 4) i empty_session)) = 1 /\
  retained s = [mkMessage "user" "Hello"] /\
  retained (step j s) =
    [mkMessage "user" "Hello"; mkMessage "user" "Again";
     mkMessage "assistant" "Hi there"] /\
  Nat.even (length (retained (step j s))) = false.
Proof.
  cbv zeta. unfold submitted.
  repeat split; try reflexivity; discriminate.
Qed.

(** C10 (amended): every submission whose run reaches its end, the
    framework raising in none of its [st.*] calls, appends two entries to
    the history it works on, whether the completion call succeeds or fails:
    the user entry with the submitted text and then one assistant entry,
    whose content is the text received until the call ended or failed (the
    empty string when nothing was received).  Such a turn leaves an
    assistant entry last and keeps an even length even.  Whatever the
    framework does, the run leaves the history it found, the history it
    works on, that history with the user entry, or that history with both
    entries. *)
Theorem C10_completed_submission_appends_user_and_assistant f i s text :
  submitted i text ->
  (fst (Live.run_script f i s) = Done tt ->
   exists req,
     requests (Live.rendered f i s) = [req] /\
     retained (Live.step f i s) =
       carried i s ++ [mkMessage "user" text;
                       mkMessage "assistant" (partial_text (remote i req))] /\
     length (retained (Live.step f i s)) = length (carried i s) + 2 /\
     last (retained (Live.step f i s)) =
       Some (mkMessage "assistant" (partial_text (remote i req))) /\
     (Nat.even (length (carried i s)) = true ->
      Nat.even (length (retained (Live.step f i s))) = true)) /\
  (retained (Live.step f i s) = retained s \/
   retained (Live.step f i s) = carried i s \/
   retained (Live.step f i s) = carried i s ++ [mkMessage "user" text] \/
   exists reply,
     retained (Live.step f i s) =
       carried i s ++ [mkMessage "user" text; mkMessage "assistant" reply]).
Proof.
  intros Hsub.
  destruct (turn_spec i s text Hsub) as (instr & _ & _ & Hstep & Hreq & _).
  split.
  - intros Hdone. unfold Live.step, Live.rendered.
    rewrite (live_run_done f i s Hdone).
    fold (step i s) (rendered i s).
    eexists. split; [exact Hreq|].
    rewrite Hstep, retained_mk, <- app_assoc.
    split; [reflexivity|].
    split; [rewrite length_app; reflexivity|].
    split; [|intros He; exact (carried_even i s He _ _)].
    rewrite app_assoc. apply last_snoc.
  - destruct (live_step_left_by f i s) as [->|[->|[(text' & Hsub' & ->)| ->]]].
    + now left.
    + right; left. reflexivity.
    + right; right; left.
      rewrite (submitted_text i text text' Hsub Hsub'). reflexivity.
    + right; right; right. rewrite Hstep, retained_mk, <- app_assoc. eauto.
Qed.

Lemma C10_completed_submission_appends_user_and_assistant_witness :
  let i := sample_run (Some "Again") (Refused connection_error) in
  let s := step (sample_run (Some "Hello") (Opened hello_stream)) empty_session in
  retained (Live.step undisturbed i s) =
    [mkMessage "user" "Hello"; mkMessage "assistant" "Hi there";
     mkMessage "user" "Again"; mkMessage "assistant" ""] /\
  Nat.even (length (retained (Live.step undisturbed i s))) = true.
Proof.
  cbv zeta.
  destruct (C10_completed_submission_appends_user_and_assistant
              undisturbed
              (sample_run (Some "Again") (Refused connection_error))
              (step (sample_run (Some "Hello") (Opened hello_stream))
                    empty_session)
              "Again") as [Hdone _].
  - unfold submitted. repeat split; [reflexivity..|discriminate].
  - destruct Hdone as (req & _ & Hhist & _ & _ & Heven);
      [vm_compute; reflexivity|].
    split; [rewrite Hhist; vm_compute; reflexivity|].
    apply Heven. vm_compute. reflexivity.
Defined.

(** ** Further properties of the script *)

(** *** The parts of a page *)

Lemma omap_markdown_writes {A} (f : Event -> option A) evs :
  (forall t, f (PlaceholderMarkdown t) = None) ->
  Forall is_markdown_write evs -> omap f evs = [].
Proof.
  intros Hf. induction 1 as [|e evs He _ IH]; [reflexivity|].
  destruct e; try contradiction. simpl. now rewrite Hf.
Qed.

Lemma omap_render_none {A} (f : Event -> option A) h :
  (forall who t, f (ChatMessage who t) = None) -> omap f (map render h) = [].
Proof.
  intros Hf. induction h as [|m h IH]; [reflexivity|].
  simpl. unfold render at 1. now rewrite Hf.
Qed.

Lemma chat_messages_render h : chat_messages (map render h) = map entry h.
Proof. induction h as [|m h IH]; [reflexivity|]. simpl. now f_equal. Qed.

Lemma carried_prepared i c :
  carried i (mkSession (Some c) (Some (character_key (selected_character i)))) = c.
Proof. rewrite carried_keep; [reflexivity|now right]. Qed.


(** *** X1: the history only grows *)

Lemma step_appends i s :
  reset_clicked i = false ->
  persona_changed i s = false ->
  retained (step i s) = retained s \/
  exists text reply,
    submitted i text /\
    retained (step i s) =
      retained s ++ [mkMessage "user" text; mkMessage "assistant" reply].
Proof.
  intros Hreset Hsame.
  assert (Hcar : carried i s = retained s) by (unfold carried; now rewrite Hsame).
  destruct (run_cases i) as [Hkey|[[Hkey Hr]|[(Hkey & _ & Hprompt)|[text Hsub]]]].
  - left. unfold step. now rewrite run_missing_key by assumption.
  - congruence.
  - left. destruct (idle_spec i s Hkey Hreset Hprompt) as (_ & -> & _).
    now rewrite retained_mk.
  - right. destruct (turn_spec i s text Hsub) as (instr & _ & _ & -> & _).
    rewrite retained_mk, Hcar, <- app_assoc. eauto.
Qed.

(** X1: a run without reset and without a change of persona never edits or
    drops a retained entry, whatever the framework does: the history after
    the run is the history before it, followed by nothing, by the user
    entry of the submitted prompt alone (when the framework ended the run
    between the two appends), or by the user and the assistant entry. *)
Theorem X1_history_is_append_only f i s :
  reset_clicked i = false ->
  persona_changed i s = false ->
  exists added,
    retained (Live.step f i s) = retained s ++ added /\
    (added = [] \/
     (exists text, submitted i text /\ added = [mkMessage "user" text]) \/
     exists text reply,
       submitted i text /\
       added = [mkMessage "user" text; mkMessage "assistant" reply]).
Proof.
  intros Hreset Hsame.
  assert (Hcar : carried i s = retained s) by (unfold carried; now rewrite Hsame).
  destruct (live_step_left_by f i s) as [->|[->|[(text & Hsub & ->)| ->]]].
  - exists []. rewrite app_nil_r. auto.
  - exists []. unfold prepared. rewrite retained_mk, Hcar, app_nil_r. auto.
  - exists [mkMessage "user" text]. unfold with_prompt.
    rewrite retained_mk, Hcar. split; [reflexivity|]. right; left. eauto.
  - destruct (step_appends i s Hreset Hsame) as [->|(text & reply & Hsub & ->)].
    + exists []. rewrite app_nil_r. auto.
    + eexists. split; [reflexivity|]. right; right. eauto.
Qed.

Lemma X1_history_is_append_only_witness :
  (exists added,
     retained (Live.step (rerun_at 28) (sample_run (Some "Hello") (Opened hello_stream))
                         long_session)
       = retained long_session ++ added) /\
  retained (Live.step (rerun_at 28) (sample_run (Some "Hello") (Opened hello_stream))
                      long_session)
    = retained long_session ++ [mkMessage "user" "Hello"].
Proof.
  split.
  - destruct (X1_history_is_append_only (rerun_at 28)
                (sample_run (Some "Hello") (Opened hello_stream)) long_session)
      as (added & Hadd & _); [reflexivity|reflexivity|].
    exists added. exact Hadd.
  - vm_compute. reflexivity.
Defined.

(** *** X2: at most one request *)


(** *** X3: a run without interaction *)

(** X3: with the credential set, no reset and no prompt (or an empty one),
    running the script again changes nothing: the second run leaves the
    session of the first and draws the same page; and when the persona is
    the stored one the history is the one before the run. *)
Theorem X3_idle_run_is_idempotent i s :
  truthy (api_key i) = true ->
  reset_clicked i = false ->
  truthy (prompt i) = false ->
  step i (step i s) = step i s /\
  rendered i (step i s) = rendered i s /\
  (persona_changed i s = false -> retained (step i s) = retained s).
Proof.
  intros Hkey Hreset Hprompt.
  unfold step, rendered. rewrite !(run_idle i _ Hkey Hreset Hprompt).
  cbn [snd session_state page]. rewrite carried_prepared.
  repeat split. intros Hsame. rewrite retained_mk. unfold carried.
  now rewrite Hsame.
Qed.

Lemma X3_idle_run_is_idempotent_witness :
  let i := sample_run (Some "") (Opened hello_stream) in
  step i (step i long_session) = step i long_session /\
  retained (step i long_session) = retained long_session.
Proof.
  cbv zeta.
  destruct (X3_idle_run_is_idempotent
              (sample_run (Some "") (Opened hello_stream)) long_session)
    as (Hstep & _ & Hkeep); [reflexivity..|].
  split; [exact Hstep|]. apply Hkeep. reflexivity.
Defined.

(** *** X4: the reset button *)

(** X4: pressing the reset button (with the credential set) wins over
    everything else in that run: the session dictionary is emptied, stored
    persona included, the run ends in a rerun having drawn only the page
    header, and a prompt submitted with it is neither stored nor sent.  Any
    later run then behaves as in a new browser session. *)
Theorem X4_reset_gives_a_new_session i s :
  truthy (api_key i) = true ->
  reset_clicked i = true ->
  run_script i s = (Halted RerunScript, mkWorld empty_session "" [SetPageConfig]) /\
  requests (rendered i s) = [] /\
  forall j, run_script j (step i s) = run_script j empty_session.
Proof.
  intros Hkey Hreset.
  unfold step, rendered. rewrite (run_reset i s Hkey Hreset).
  repeat split.
Qed.

Lemma X4_reset_gives_a_new_session_witness :
  let i := mkInputs (Some "sk-test") "gpt-4o" (1 # 2) 512 CalmLibrarian true
                    (Some "Hello") (fun _ => Opened hello_stream) in
  step i long_session = empty_session.
Proof.
  cbv zeta. unfold step.
  rewrite (proj1 (X4_reset_gives_a_new_session
                    (mkInputs (Some "sk-test") "gpt-4o" (1 # 2) 512 CalmLibrarian
                              true (Some "Hello") (fun _ => Opened hello_stream))
                    long_session eq_refl eq_refl)).
  reflexivity.
Defined.

(** *** X5: what the placeholder shows when the turn is over *)







(** *** X6: a chunk without choices *)




(** *** X7: what accompanies the prompt *)

Lemma window_snoc h m :
  window (h ++ [m]) = drop (length h - 19) h ++ [m].
Proof.
  unfold window, N. rewrite length_app. cbn [length].
  replace (length h + 1 - 20) with (length h - 19) by lia.
  rewrite drop_app_le by lia. reflexivity.
Qed.

(** X7: the user entry is appended before the window is cut, so the
    request of a submission is the system entry, then the last 19 entries
    of the history the run worked on (all of them when there are fewer),
    then the prompt just submitted as its last message. *)
Theorem X7_request_ends_with_the_prompt i s text req :
  submitted i text ->
  requests (rendered i s) = [req] ->
  exists instr,
    dict_get character_prompts (character_key (selected_character i)) = Some instr /\
    req_messages req =
      mkMessage "system" instr ::
      drop (length (carried i s) - 19) (carried i s) ++ [mkMessage "user" text] /\
    last (req_messages req) = Some (mkMessage "user" text).
Proof.
  intros Hsub Hreq.
  destruct (turn_spec i s text Hsub) as (instr & Hinstr & _ & _ & Hreq' & _).
  rewrite Hreq in Hreq'. injection Hreq' as ->.
  exists instr. split; [exact Hinstr|].
  unfold request_for. cbn [req_messages]. rewrite window_snoc.
  split; [reflexivity|].
  rewrite app_comm_cons. apply last_snoc.
Qed.

Lemma X7_request_ends_with_the_prompt_witness :
  let i := sample_run (Some "Hello") (Opened hello_stream) in
  exists req,
    requests (rendered i long_session) = [req] /\
    last (req_messages req) = Some (mkMessage "user" "Hello").
Proof.
  cbv zeta.
  exists (request_for (sample_run (Some "Hello") (Opened hello_stream))
            (default "" (dict_get character_prompts
                                  (character_key FriendlyMentor)))
            (retained long_session ++ [mkMessage "user" "Hello"])).
  split; [vm_compute; reflexivity|].
  destruct (X7_request_ends_with_the_prompt
              (sample_run (Some "Hello") (Opened hello_stream)) long_session
              "Hello"
              (request_for (sample_run (Some "Hello") (Opened hello_stream))
                 (default "" (dict_get character_prompts
                                       (character_key FriendlyMentor)))
                 (retained long_session ++ [mkMessage "user" "Hello"])))
    as (instr & _ & _ & Hlast).
  - unfold submitted. repeat split; [reflexivity..|discriminate].
  - vm_compute. reflexivity.
  - exact Hlast.
Defined.

(** *** X8: whole turns and the window *)

Lemma turns_of_snoc ps t r :
  turns_of (ps ++ [(t, r)]) =
    turns_of ps ++ [mkMessage "user" t; mkMessage "assistant" r].
Proof. unfold turns_of. now rewrite flat_map_app. Qed.

Lemma carried_cases i s : carried i s = [] \/ carried i s = retained s.
Proof. unfold carried. destruct (persona_changed i s); auto. Qed.

Lemma turns_of_length ps : length (turns_of ps) = 2 * length ps.
Proof. induction ps as [|[t r] ps IH]; simpl in *; lia. Qed.

Lemma turns_of_users ps :
  length (filter (fun m => String.eqb (role m) "user" = true) (turns_of ps)) =
    length ps.
Proof.
  induction ps as [|[t r] ps IH]; [reflexivity|].
  change (turns_of ((t, r) :: ps))
    with (mkMessage "user" t :: mkMessage "assistant" r :: turns_of ps).
  rewrite filter_cons_True by reflexivity.
  rewrite filter_cons_False by discriminate.
  simpl. now rewrite IH.
Qed.

Lemma turns_of_alternating ps : alternating (turns_of ps).
Proof.
  induction ps as [|[t r] ps IH].
  - intros k m Hk. inversion Hk.
  - now apply alternating_turn.
Qed.

(** X8: when the history a submission works on consists of whole turns
    and has 20 entries or more, the window cuts a turn in two: the first
    history entry sent to the model, right after the system entry, is an
    assistant entry whose user entry is not sent. *)
Theorem X8_long_window_starts_with_a_reply f i s text req ps :
  submitted i text ->
  fst (Live.run_script f i s) = Done tt ->
  requests (Live.rendered f i s) = [req] ->
  carried i s = turns_of ps ->
  20 <= length (carried i s) ->
  exists m,
    req_messages req !! 1 = Some m /\
    role m = "assistant" /\
    carried i s !! (length (carried i s) - 19) = Some m.
Proof.
  intros Hsub Hdone Hreq Hcar Hlong.
  unfold Live.rendered in Hreq. rewrite (live_run_done f i s Hdone) in Hreq.
  fold (rendered i s) in Hreq.
  destruct (turn_spec i s text Hsub) as (instr & _ & _ & _ & Hreq' & _).
  rewrite Hreq in Hreq'. injection Hreq' as ->.
  pose proof (turns_of_length ps) as Hlen. rewrite <- Hcar in Hlen.
  destruct (lookup_lt_is_Some_2 (carried i s) (length (carried i s) - 19))
    as [m Hm]; [lia|].
  exists m. unfold request_for. cbn [req_messages]. rewrite window_snoc.
  split; [|split; [|exact Hm]].
  - change ((drop (length (carried i s) - 19) (carried i s)
             ++ [mkMessage "user" text]) !! 0 = Some m).
    rewrite lookup_app_l by (rewrite length_drop; lia).
    rewrite lookup_drop, Nat.add_0_r. exact Hm.
  - rewrite Hcar in Hm.
    rewrite (turns_of_alternating ps _ _ Hm), <- Hcar, Hlen.
    replace (2 * length ps - 19) with (1 + 2 * (length ps - 10)) by lia.
    now rewrite Nat.even_add_mul_2.
Qed.

Lemma X8_long_window_starts_with_a_reply_witness :
  let i := sample_run (Some "Hello") (Opened hello_stream) in
  exists m,
    carried i long_session !! 5 = Some m /\ role m = "assistant".
Proof.
  cbv zeta.
  destruct (X8_long_window_starts_with_a_reply undisturbed
              (sample_run (Some "Hello") (Opened hello_stream)) long_session
              "Hello"
              (request_for (sample_run (Some "Hello") (Opened hello_stream))
                 (default "" (dict_get character_prompts
                                       (character_key FriendlyMentor)))
                 (retained long_session ++ [mkMessage "user" "Hello"]))
              (repeat ("q", "a") 12))
    as (m & _ & Hrole & Hm).
  - unfold submitted. repeat split; [reflexivity..|discriminate].
  - vm_compute. reflexivity.
  - vm_compute. reflexivity.
  - vm_compute. reflexivity.
  - vm_compute. lia.
  - exists m. split; [exact Hm|exact Hrole].
Defined.

(** *** X9: the counters *)

Lemma metrics_footer h :
  metrics (footer h) =
    [("총 메시지", length h);
     ("사용자 메시지",
      length (filter (fun m => String.eqb (role m) "user" = true) h))].
Proof. now destruct h. Qed.

Lemma metrics_error_report r : metrics (error_report r) = [].
Proof. unfold error_report. now destruct (failure r). Qed.

Lemma metrics_completed i s :
  truthy (api_key i) = true -> reset_clicked i = false ->
  metrics (rendered i s) =
    [("총 메시지", length (retained (step i s)));
     ("사용자 메시지",
      length (filter (fun m => String.eqb (role m) "user" = true)
                     (retained (step i s))))].
Proof.
  intros Hkey Hreset. unfold step, rendered.
  destruct (truthy (prompt i)) eqn:Hprompt.
  - destruct (truthy_inv _ Hprompt) as (text & Hp & Htext).
    destruct (run_submit i s text) as (instr & evs & _ & Hmd & _ & Hrun).
    { unfold submitted. auto. }
    rewrite Hrun. cbn [snd session_state page]. rewrite retained_mk.
    change (SetPageConfig :: ?l) with ([SetPageConfig] ++ l).
    unfold metrics at 1. rewrite !omap_app.
    fold (metrics (footer ((carried i s ++ [mkMessage "user" text]) ++
            [mkMessage "assistant"
               (partial_text
                  (remote i (request_for i instr
                               (carried i s ++ [mkMessage "user" text]))))]))).
    fold (metrics (error_report
            (remote i (request_for i instr
                         (carried i s ++ [mkMessage "user" text]))))).
    rewrite metrics_footer, metrics_error_report.
    rewrite omap_render_none by reflexivity.
    rewrite (omap_markdown_writes _ evs) by (reflexivity || assumption).
    reflexivity.
  - rewrite (run_idle i s Hkey Hreset Hprompt).
    cbn [snd session_state page]. rewrite retained_mk.
    change (SetPageConfig :: ?l) with ([SetPageConfig] ++ l).
    unfold metrics at 1. rewrite !omap_app.
    fold (metrics (footer (carried i s))).
    rewrite metrics_footer, omap_render_none by reflexivity.
    reflexivity.
Qed.

Lemma blocks_of_snoc bs t r :
  blocks_of (bs ++ [(t, r)]) =
    blocks_of bs ++
    mkMessage "user" t ::
    match r with Some x => [mkMessage "assistant" x] | None => [] end.
Proof. unfold blocks_of. rewrite flat_map_app. simpl. now rewrite app_nil_r. Qed.

Lemma live_step_blocks f i s bs :
  retained s = blocks_of bs ->
  exists bs', retained (Live.step f i s) = blocks_of bs'.
Proof.
  intros Hs.
  assert (Hcar : exists qs, carried i s = blocks_of qs).
  { destruct (carried_cases i s) as [->| ->]; [now exists []|eauto]. }
  destruct Hcar as [qs Hqs].
  destruct (live_step_left_by f i s) as [->|[->|[(text & _ & ->)| ->]]].
  - eauto.
  - unfold prepared. rewrite retained_mk. eauto.
  - unfold with_prompt. rewrite retained_mk.
    exists (qs ++ [(text, None)]). now rewrite blocks_of_snoc, Hqs.
  - destruct (step_history i s) as [->|[->|[->|(text & reply & _ & ->)]]].
    + eauto.
    + now exists [].
    + eauto.
    + exists (qs ++ [(text, Some reply)]). now rewrite blocks_of_snoc, Hqs.
Qed.

Lemma live_session_blocks runs s bs :
  retained s = blocks_of bs ->
  exists bs', retained (Live.run_session runs s) = blocks_of bs'.
Proof.
  revert s bs. induction runs as [|[f i] runs IH]; intros s bs Hs; [eauto|].
  destruct (live_step_blocks f i s bs Hs) as [bs' Hbs'].
  exact (IH _ _ Hbs').
Qed.

Lemma blocks_of_users bs :
  length (filter (fun m => String.eqb (role m) "user" = true) (blocks_of bs)) =
    length bs.
Proof.
  induction bs as [|[t [r|]] bs IH]; [reflexivity| |].
  - change (blocks_of ((t, Some r) :: bs))
      with (mkMessage "user" t :: mkMessage "assistant" r :: blocks_of bs).
    rewrite filter_cons_True by reflexivity.
    rewrite filter_cons_False by discriminate.
    simpl. now rewrite IH.
  - change (blocks_of ((t, None) :: bs))
      with (mkMessage "user" t :: blocks_of bs).
    rewrite filter_cons_True by reflexivity.
    simpl. now rewrite IH.
Qed.

Lemma blocks_of_length bs :
  length bs <= length (blocks_of bs) <= 2 * length bs.
Proof.
  induction bs as [|[t [r|]] bs IH]; simpl in *; lia.
Qed.

(** X9: in a session started empty, whichever of its runs the framework
    cut short, a run that reaches its end shows in the side bar the length
    [n] of the history and the number [u] of its user entries, with
    [u <= n <= 2 * u]; [n] is exactly [2 * u] when the history consists of
    whole turns. *)
Theorem X9_user_counter_is_at_least_half_the_total runs f i :
  let s := Live.run_session runs empty_session in
  fst (Live.run_script f i s) = Done tt ->
  exists n u,
    metrics (Live.rendered f i s) = [("총 메시지", n); ("사용자 메시지", u)] /\
    n = length (retained (Live.step f i s)) /\
    u <= n /\ n <= 2 * u /\
    (forall ps, retained (Live.step f i s) = turns_of ps -> n = 2 * u).
Proof.
  intros s Hdone.
  destruct (live_session_blocks runs empty_session [] eq_refl) as [bs Hbs].
  fold s in Hbs.
  destruct (live_step_blocks f i s bs Hbs) as [bs' Hbs'].
  unfold Live.rendered, Live.step in *.
  pose proof (live_run_done f i s Hdone) as Hrun. rewrite Hrun in *.
  destruct (done_inv i s Hdone) as [Hkey Hreset].
  fold (step i s) in *. fold (rendered i s).
  rewrite (metrics_completed i s Hkey Hreset).
  eexists _, _. split; [reflexivity|]. split; [reflexivity|].
  split; [|split].
  - rewrite Hbs', blocks_of_users. apply blocks_of_length.
  - rewrite Hbs', blocks_of_users. apply blocks_of_length.
  - intros ps ->. now rewrite turns_of_users, turns_of_length.
Qed.

Lemma X9_user_counter_is_at_least_half_the_total_witness :
  metrics (Live.rendered undisturbed
             (sample_run (Some "Again") (Opened hello_stream))
             (Live.run_session
                [(rerun_at 4, sample_run (Some "Hello") (Opened hello_stream))]
                empty_session)) =
    [("총 메시지", 3); ("사용자 메시지", 2)].
Proof.
  destruct (X9_user_counter_is_at_least_half_the_total
              [(rerun_at 4, sample_run (Some "Hello") (Opened hello_stream))]
              undisturbed (sample_run (Some "Again") (Opened hello_stream)))
    as (n & u & Hm & _); [vm_compute; reflexivity|].
  vm_compute. reflexivity.
Defined.

(** *** X10: the transcript grows with the history *)

Lemma export_markdown_app h h' :
  h <> [] -> h' <> [] ->
  export_markdown (h ++ h') =
    (export_markdown h ++ LF ++ LF ++ export_markdown h')%string.
Proof.
  intros Hh Hh'. induction h as [|m [|m2 h] IH]; [contradiction| |].
  - destruct h' as [|m' h']; [contradiction|]. apply export_markdown_cons.
  - change ((m :: m2 :: h) ++ h') with (m :: m2 :: (h ++ h')).
    rewrite !export_markdown_cons.
    change (m2 :: h ++ h') with ((m2 :: h) ++ h').
    rewrite IH by discriminate.
    now rewrite !string_app_assoc.
Qed.

Lemma transcript_after_turn i s text req :
  submitted i text ->
  requests (rendered i s) = [req] ->
  persona_changed i s = false ->
  let turn :=
    ("**user**: " ++ text ++ LF ++ LF ++
     "**assistant**: " ++ partial_text (remote i req))%string in
  offered (rendered i s) =
    [match retained s with
     | [] => turn
     | _ :: _ => (export_markdown (retained s) ++ LF ++ LF ++ turn)%string
     end].
Proof.
  intros Hsub Hreq Hsame turn.
  destruct (turn_spec i s text Hsub) as (instr & _ & _ & _ & Hreq' & Hoff & _).
  rewrite Hreq in Hreq'. injection Hreq' as ->.
  assert (Hcar : carried i s = retained s) by (unfold carried; now rewrite Hsame).
  subst turn. rewrite Hoff, Hcar, <- app_assoc.
  destruct (retained s) as [|m h]; [reflexivity|].
  now rewrite export_markdown_app by discriminate.
Qed.

(** X10: a submission under the stored persona whose run reaches its end
    extends the transcript offered for download: it is the transcript of
    the history before the turn, two line feeds, and the two new entries;
    after the first turn of a history it is the two new entries alone. *)
Theorem X10_transcript_is_extended_by_the_turn f i s text req :
  submitted i text ->
  fst (Live.run_script f i s) = Done tt ->
  requests (Live.rendered f i s) = [req] ->
  persona_changed i s = false ->
  let turn :=
    ("**user**: " ++ text ++ LF ++ LF ++
     "**assistant**: " ++ partial_text (remote i req))%string in
  offered (Live.rendered f i s) =
    [match retained s with
     | [] => turn
     | _ :: _ => (export_markdown (retained s) ++ LF ++ LF ++ turn)%string
     end].
Proof.
  intros Hsub Hdone Hreq Hsame.
  unfold Live.rendered in *. rewrite (live_run_done f i s Hdone) in *.
  now apply transcript_after_turn.
Qed.

Lemma X10_transcript_is_extended_by_the_turn_witness :
  let first := sample_run (Some "Hello") (Opened hello_stream) in
  let second := sample_run (Some "Again") (Refused connection_error) in
  offered (Live.rendered undisturbed second (step first empty_session)) =
    [("**user**: Hello" ++ LF ++ LF ++ "**assistant**: Hi there" ++ LF ++ LF ++
      "**user**: Again" ++ LF ++ LF ++ "**assistant**: ")%string].
Proof.
  cbv zeta.
  rewrite (X10_transcript_is_extended_by_the_turn undisturbed
             (sample_run (Some "Again") (Refused connection_error))
             (step (sample_run (Some "Hello") (Opened hello_stream)) empty_session)
             "Again"
             (request_for (sample_run (Some "Again") (Refused connection_error))
                (default "" (dict_get character_prompts
                                      (character_key FriendlyMentor)))
                [mkMessage "user" "Hello"; mkMessage "assistant" "Hi there";
                 mkMessage "user" "Again"])).
  - vm_compute. reflexivity.
  - unfold submitted. repeat split; [reflexivity..|discriminate].
  - vm_compute. reflexivity.
  - vm_compute. reflexivity.
  - vm_compute. reflexivity.
Defined.

(** *** X11: what the next run draws *)

Lemma chat_messages_idle i s :
  truthy (api_key i) = true -> reset_clicked i = false ->
  truthy (prompt i) = false ->
  chat_messages (rendered i s) = map entry (retained (step i s)).
Proof.
  intros Hkey Hreset Hprompt. unfold step, rendered.
  rewrite (run_idle i s Hkey Hreset Hprompt).
  cbn [snd session_state page]. rewrite retained_mk.
  change (SetPageConfig :: ?l) with ([SetPageConfig] ++ l).
  unfold chat_messages at 1. rewrite !omap_app.
  fold (chat_messages (map render (carried i s))).
  rewrite chat_messages_render.
  destruct (carried i s); cbn; now rewrite ?app_nil_r.
Qed.

(** X11: a run without a prompt that reaches its end draws one chat bubble
    per retained entry, oldest first.  So after a submission whose run
    reached its end, the next such run under the same persona draws the
    assistant entry of that turn whether the completion call succeeded or
    failed: after a call that failed before any text arrived, an assistant
    bubble with empty text. *)
Theorem X11_next_run_draws_the_committed_turn f g i j s text req :
  submitted i text ->
  fst (Live.run_script f i s) = Done tt ->
  requests (Live.rendered f i s) = [req] ->
  fst (Live.run_script g j (Live.step f i s)) = Done tt ->
  truthy (prompt j) = false ->
  selected_character j = selected_character i ->
  chat_messages (Live.rendered g j (Live.step f i s)) =
    map entry (carried i s) ++
    [("user", text); ("assistant", partial_text (remote i req))].
Proof.
  intros Hsub Hdone Hreq Hdone' Hprompt Hsel.
  pose proof (live_run_done f i s Hdone) as Hf.
  unfold Live.rendered, Live.step in *. rewrite Hf in *.
  fold (step i s) in *. fold (rendered i s) in Hreq.
  pose proof (live_run_done g j _ Hdone') as Hg.
  rewrite Hg in Hdone'. rewrite Hg. fold (rendered j (step i s)).
  destruct (done_inv j _ Hdone') as [Hkey Hreset].
  rewrite (chat_messages_idle j _ Hkey Hreset Hprompt).
  destruct (turn_spec i s text Hsub) as (instr & _ & _ & Hstep & Hreq' & _).
  rewrite Hreq in Hreq'. injection Hreq' as ->.
  destruct (idle_spec j (step i s) Hkey Hreset Hprompt) as (_ & -> & _).
  rewrite retained_mk, carried_keep by (right; rewrite Hstep, Hsel; reflexivity).
  rewrite Hstep, retained_mk, <- app_assoc, map_app. reflexivity.
Qed.

Lemma X11_next_run_draws_the_committed_turn_witness :
  let i := sample_run (Some "Hello") (Refused connection_error) in
  let j := sample_run None (Refused connection_error) in
  chat_messages (Live.rendered undisturbed j (Live.step undisturbed i empty_session)) =
    [("user", "Hello"); ("assistant", "")].
Proof.
  cbv zeta.
  rewrite (X11_next_run_draws_the_committed_turn undisturbed undisturbed
             (sample_run (Some "Hello") (Refused connection_error))
             (sample_run None (Refused connection_error))
             empty_session "Hello"
             (request_for (sample_run (Some "Hello") (Refused connection_error))
                (default "" (dict_get character_prompts
                                      (character_key FriendlyMentor)))
                [mkMessage "user" "Hello"]));
    try (vm_compute; reflexivity).
  unfold submitted. repeat split; [reflexivity..|discriminate].
Defined.

(** *** X12: the options of the persona select box *)

Lemma character_key_inj (p q : Persona) :
  character_key p = character_key q -> p = q.
Proof.
  destruct p, q; intros H; try reflexivity; vm_compute in H; discriminate.
Qed.

(** X12: the three options of the select box have different keys, so the
    script tells any two of them apart: a run without a prompt keeps the
    history when the selected option is the stored one and empties it when
    it is any other option. *)
Theorem X12_history_follows_the_selected_option i s p :
  character s = Some (character_key p) ->
  truthy (api_key i) = true ->
  reset_clicked i = false ->
  truthy (prompt i) = false ->
  (p = selected_character i -> retained (step i s) = retained s) /\
  (p <> selected_character i -> retained (step i s) = []).
Proof.
  intros Hchar Hkey Hreset Hprompt.
  destruct (idle_spec i s Hkey Hreset Hprompt) as (_ & -> & _).
  rewrite retained_mk. split.
  - intros ->. apply carried_keep. now right.
  - intros Hne. apply (carried_switch i s _ Hchar).
    intros Heq. apply Hne. now apply character_key_inj.
Qed.

Lemma X12_history_follows_the_selected_option_witness :
  retained (step (sample_run None (Opened hello_stream)) long_session) =
    retained long_session /\
  retained (step (mkInputs (Some "sk-test") "gpt-4o" (1 # 2) 512 NinetiesMood
                           false None (fun _ => Opened hello_stream))
                 long_session) = [].
Proof.
  split.
  - apply (proj1 (X12_history_follows_the_selected_option
                    (sample_run None (Opened hello_stream)) long_session
                    FriendlyMentor eq_refl eq_refl eq_refl eq_refl)).
    reflexivity.
  - apply (proj2 (X12_history_follows_the_selected_option
                    (mkInputs (Some "sk-test") "gpt-4o" (1 # 2) 512 NinetiesMood
                              false None (fun _ => Opened hello_stream))
                    long_session FriendlyMentor eq_refl eq_refl eq_refl eq_refl)).
    discriminate.
Defined.

(** *** X13: the error elements *)

Lemma error_elements_footer h : error_elements (footer h) = [].
Proof. now destruct h. Qed.

Lemma error_elements_error_report r :
  error_elements (error_report r) =
    match failure r with Some e => [error_line e] | None => [] end.
Proof. unfold error_report. now destruct (failure r). Qed.

Lemma error_line_is_not_the_instructions e : error_line e <> missing_key_text.
Proof. unfold error_line, missing_key_text. cbn. discriminate. Qed.

(** X13: in a run the framework does not interrupt, the error elements on
    the page are these.  Without the credential: the set-up instructions,
    once.  With it: nothing when no request was sent, and otherwise the
    error line of the completion call when it failed, written in the
    placeholder, and nothing when it succeeded.  An error line is never the
    text of the set-up instructions. *)
Theorem X13_error_elements_of_a_run f i s :
  quiet f ->
  (truthy (api_key i) = false ->
   error_elements (Live.rendered f i s) = [missing_key_text]) /\
  (truthy (api_key i) = true ->
   error_elements (Live.rendered f i s) =
     match requests (Live.rendered f i s) with
     | [] => []
     | req :: _ =>
         match failure (remote i req) with
         | Some e => [error_line e]
         | None => []
         end
     end /\
   (forall t, t ∈ error_elements (Live.rendered f i s) ->
              PlaceholderError t ∈ Live.rendered f i s)) /\
  (forall e, error_line e <> missing_key_text).
Proof.
  intros Hquiet. unfold Live.rendered. rewrite (live_run_quiet f i s Hquiet).
  fold (rendered i s).
  split; [|split; [|apply error_line_is_not_the_instructions]].
  - intros Hkey. unfold rendered. now rewrite run_missing_key.
  - intros Hkey.
    destruct (run_cases i) as [Hk|[[_ Hr]|[(_ & Hreset & Hprompt)|[text Hsub]]]].
    + congruence.
    + unfold rendered. rewrite run_reset by assumption.
      split; [reflexivity|]. intros t Ht. inversion Ht.
    + destruct (idle_spec i s Hkey Hreset Hprompt) as (_ & _ & -> & _).
      unfold rendered. rewrite (run_idle i s Hkey Hreset Hprompt). cbn [snd page].
      change (SetPageConfig :: ?l) with ([SetPageConfig] ++ l).
      unfold error_elements at 1 2. rewrite !omap_app.
      fold (error_elements (footer (carried i s))).
      rewrite error_elements_footer, omap_render_none by reflexivity.
      split; [reflexivity|]. intros t Ht. inversion Ht.
    + destruct (turn_spec i s text Hsub) as (instr & Hinstr & _ & _ & Hreq & _ & Herr).
      rewrite Hreq.
      destruct (run_submit i s text Hsub) as (instr' & evs & Hinstr' & Hmd & _ & Hrun).
      cbv zeta in Hinstr'. rewrite Hinstr in Hinstr'. injection Hinstr' as <-.
      assert (Hel : error_elements (rendered i s) =
                    match failure (remote i (request_for i instr
                             (carried i s ++ [mkMessage "user" text]))) with
                    | Some e => [error_line e]
                    | None => []
                    end).
      { unfold rendered. rewrite Hrun. cbn [snd page].
        change (SetPageConfig :: ?l) with ([SetPageConfig] ++ l).
        unfold error_elements at 1. rewrite !omap_app.
        match goal with |- context [omap ?g (footer ?h)] =>
          change (omap g (footer h)) with (error_elements (footer h)) end.
        match goal with |- context [omap ?g (error_report ?r)] =>
          change (omap g (error_report r)) with (error_elements (error_report r))
        end.
        rewrite error_elements_footer, error_elements_error_report.
        rewrite omap_render_none by reflexivity.
        rewrite (omap_markdown_writes _ evs) by (reflexivity || assumption).
        cbn [omap app]. now rewrite app_nil_r. }
      split; [exact Hel|].
      intros t Ht. rewrite Hel in Ht.
      destruct (failure _) as [e|] eqn:He; [|inversion Ht].
      apply list_elem_of_singleton in Ht as ->. now apply Herr.
Qed.

Lemma X13_error_elements_of_a_run_witness :
  error_elements
    (Live.rendered undisturbed
       (mkInputs None "gpt-4o-mini" (7 # 10) 1024 FriendlyMentor false
                 (Some "Hello") (fun _ => Opened hello_stream))
       empty_session) = [missing_key_text] /\
  error_elements
    (Live.rendered undisturbed
       (sample_run (Some "Hello") (Opened broken_stream)) empty_session) =
    [error_line connection_error].
Proof.
  split.
  - apply (proj1 (X13_error_elements_of_a_run undisturbed
                    (mkInputs None "gpt-4o-mini" (7 # 10) 1024 FriendlyMentor
                              false (Some "Hello")
                              (fun _ => Opened hello_stream))
                    empty_session (fun _ => eq_refl))).
    reflexivity.
  - destruct (proj1 (proj2 (X13_error_elements_of_a_run undisturbed
                      (sample_run (Some "Hello") (Opened broken_stream))
                      empty_session (fun _ => eq_refl))) eq_refl) as [Hel _].
    rewrite Hel. vm_compute. reflexivity.
Defined.

(** *** X14: no system entry, whatever the framework does *)

Lemma live_step_conversational f i s :
  conversational (retained s) -> conversational (retained (Live.step f i s)).
Proof.
  intros Hs.
  destruct (live_step_left_by f i s) as [->|[->|[(text & _ & ->)| ->]]].
  - exact Hs.
  - unfold prepared. rewrite retained_mk. now apply carried_conversational.
  - unfold with_prompt. rewrite retained_mk.
    apply conversational_snoc; [now apply carried_conversational|now left].
  - now apply step_conversational.
Qed.

(** X14: in a session whose runs the framework may end in any [st.*] call,
    the history still holds user and assistant entries only: a run that is
    cut short leaves at most the user entry of its prompt behind. *)
Theorem X14_interrupted_runs_store_no_system_entry runs s :
  conversational (retained s) ->
  conversational (retained (Live.run_session runs s)) /\
  Forall (fun m => role m <> "system") (retained (Live.run_session runs s)).
Proof.
  intros Hs.
  assert (H : conversational (retained (Live.run_session runs s))).
  { revert s Hs. induction runs as [|[f i] runs IH]; intros s Hs; [exact Hs|].
    apply (IH (Live.step f i s)). now apply live_step_conversational. }
  split; [exact H|now apply conversational_no_system].
Qed.

Lemma X14_interrupted_runs_store_no_system_entry_witness :
  Forall (fun m => role m <> "system")
         (retained (Live.run_session
                      [(rerun_at 4, sample_run (Some "Hello") (Opened hello_stream));
                       (rerun_at 2, sample_run (Some "Again") (Opened broken_stream));
                       (undisturbed, sample_run (Some "Once more") (Opened broken_stream))]
                      empty_session)).
Proof.
  refine (proj2 (X14_interrupted_runs_store_no_system_entry _ empty_session _)).
  constructor.
Defined.
